(** * compile.py: the three-stage model-compilation pipeline

    A shallow embedding of [src/compile.py]: the three stage functions
    [download_model], [export_to_onnx], [convert_onnx_to_engine] and the
    controller [main], over

    - a model of [pathlib] paths (a path is the tuple of its [parts]),
    - a filesystem tree of regular files and directories,
    - a state-and-exception monad in which [sys.exit] is an outcome of its
      own, since [SystemExit] is not an [Exception] and passes through
      [except Exception],
    - the external collaborators (the model provider and [subprocess.run])
      as a record of arbitrary functions, so that every theorem quantifies
      over every behaviour they can have.

    Outside the model: symbolic links, permissions (so [exists] and
    [print] never raise), [..] components (taken as plain names), and an
    external call that changes the filesystem and then raises (a call
    that raises is taken to leave the filesystem as it was). *)

From Stdlib Require Import String Ascii List ZArith Bool Lia.
Import ListNotations.
Local Open Scope list_scope.
Local Open Scope string_scope.

(** ** Strings *)

Definition nl : string := String "010"%char EmptyString.

(** [sep.join(xs)] *)
Fixpoint join (sep : string) (xs : list string) : string :=
  match xs with
  | [] => ""
  | [x] => x
  | x :: rest => x ++ sep ++ join sep rest
  end.

(** [s.split(c)], with [cur] the component read so far. *)
Fixpoint split_at (c : ascii) (s cur : string) : list string :=
  match s with
  | EmptyString => [cur]
  | String a s' =>
      if Ascii.eqb a c then cur :: split_at c s' ""
      else split_at c s' (cur ++ String a "")
  end.

(** ** pathlib *)

Module Pathlib.

(** A pure POSIX path is its [parts]: the root (["/"] or ["//"]) first
    when the path is absolute, then the components. *)
Definition Path := list string.

Definition is_root (c : string) : bool := String.eqb c "/" || String.eqb c "//".

(** The root of a path string: exactly two leading slashes are kept,
    one or three and more collapse to one. *)
Definition root_of (s : string) : list string :=
  match s with
  | String "/" (String "/" (String "/" _)) => ["/"]
  | String "/" (String "/" _) => ["//"]
  | String "/" _ => ["/"]
  | _ => []
  end.

Definition keep_component (c : string) : bool :=
  negb (String.eqb c "" || String.eqb c ".").

(** [Path(s)]: empty and [.] components are dropped. *)
Definition Path_of (s : string) : Path :=
  (root_of s ++ filter keep_component (split_at "/" s ""))%list.

Definition is_absolute (p : Path) : bool :=
  match p with
  | c :: _ => is_root c
  | [] => false
  end.

(** [p / s]: an absolute right operand replaces the left one. *)
Definition truediv (p : Path) (s : string) : Path :=
  let q := Path_of s in
  if is_absolute q then q else (p ++ q)%list.

(** [str(p)] *)
Definition str (p : Path) : string :=
  match p with
  | [] => "."
  | c :: rest => if is_root c then c ++ join "/" rest else join "/" p
  end.

End Pathlib.
Export Pathlib.

Notation "p // s" := (truediv p s) (at level 40, left associativity).

(** ** Exceptions and outcomes *)

(** An instance of a subclass of [Exception]: its class and [str(e)]. *)
Record exn := Exn { exn_class : string; exn_str : string }.

(** How a computation ends: it returns, it raises an [Exception], or
    [sys.exit(code)] raised [SystemExit]. *)
Inductive outcome (A : Type) : Type :=
| Returns (a : A)
| Raises (e : exn)
| Exits (code : Z).
Arguments Returns {A} a.
Arguments Raises {A} e.
Arguments Exits {A} code.

(** The exit status of the interpreter when the script ends with [o]:
    an uncaught exception prints a traceback and gives status 1. *)
Definition exit_status {A} (o : outcome A) : Z :=
  match o with
  | Returns _ => 0
  | Raises _ => 1
  | Exits code => code
  end.

(** ** The filesystem *)

#[local] Set Warnings "-register-all".

Inductive node : Type :=
| File (data : string)
| Dir (entries : list (string * node)).

(** The entries of the directory relative paths resolve in; an absolute
    path starts with the entry of its root. *)
Definition filesystem := list (string * node).

Fixpoint assoc {A} (k : string) (es : list (string * A)) : option A :=
  match es with
  | [] => None
  | (k', v) :: rest => if String.eqb k k' then Some v else assoc k rest
  end.

(** Replace the entry in place, or add it at the end. *)
Fixpoint set_entry {A} (k : string) (v : A) (es : list (string * A)) : list (string * A) :=
  match es with
  | [] => [(k, v)]
  | (k', v') :: rest =>
      if String.eqb k k' then (k, v) :: rest else (k', v') :: set_entry k v rest
  end.

Fixpoint del_entry {A} (k : string) (es : list (string * A)) : list (string * A) :=
  match es with
  | [] => []
  | (k', v') :: rest =>
      if String.eqb k k' then rest else (k', v') :: del_entry k rest
  end.

Fixpoint lookup_node (p : Path) (n : node) : option node :=
  match p with
  | [] => Some n
  | c :: p' =>
      match n with
      | File _ => None
      | Dir es =>
          match assoc c es with
          | Some child => lookup_node p' child
          | None => None
          end
      end
  end.

Definition lookup (p : Path) (fs : filesystem) : option node :=
  lookup_node p (Dir fs).

(** [p.exists()] *)
Definition path_exists (p : Path) (fs : filesystem) : bool :=
  match lookup p fs with
  | Some _ => true
  | None => false
  end.

(** Put [new] at [p]; the parent of [p] must be a directory. *)
Fixpoint put_entries (p : Path) (new : node) (es : list (string * node))
  : option (list (string * node)) :=
  match p with
  | [] => None
  | [c] => Some (set_entry c new es)
  | c :: p' =>
      match assoc c es with
      | Some (Dir sub) =>
          match put_entries p' new sub with
          | Some sub' => Some (set_entry c (Dir sub') es)
          | None => None
          end
      | _ => None
      end
  end.

Fixpoint remove_entries (p : Path) (es : list (string * node))
  : option (list (string * node)) :=
  match p with
  | [] => None
  | [c] => Some (del_entry c es)
  | c :: p' =>
      match assoc c es with
      | Some (Dir sub) =>
          match remove_entries p' sub with
          | Some sub' => Some (set_entry c (Dir sub') es)
          | None => None
          end
      | _ => None
      end
  end.

Definition path_eqb (p q : Path) : bool :=
  if list_eq_dec string_dec p q then true else false.

Fixpoint is_prefix (p q : Path) : bool :=
  match p, q with
  | [], _ => true
  | c :: p', d :: q' => String.eqb c d && is_prefix p' q'
  | _ :: _, [] => false
  end.

Definition OSError (cls msg : string) (p : Path) : exn :=
  Exn cls (msg ++ ": '" ++ str p ++ "'").

(** The error numbers [os.rename] fails with. *)
Inductive errno : Type :=
| ENOENT | ENOTDIR | EISDIR | ENOTEMPTY | EINVAL | EBUSY.

(** The exception [os.rename(src, dst)] raises for an error number: its
    text names both paths. *)
Definition rename_error (e : errno) (src dst : Path) : exn :=
  let (cls, msg) :=
    match e with
    | ENOENT => ("FileNotFoundError", "[Errno 2] No such file or directory")
    | ENOTDIR => ("NotADirectoryError", "[Errno 20] Not a directory")
    | EISDIR => ("IsADirectoryError", "[Errno 21] Is a directory")
    | ENOTEMPTY => ("OSError", "[Errno 39] Directory not empty")
    | EINVAL => ("OSError", "[Errno 22] Invalid argument")
    | EBUSY => ("OSError", "[Errno 16] Device or resource busy")
    end in
  Exn cls (msg ++ ": '" ++ str src ++ "' -> '" ++ str dst ++ "'").

(** Walking down to the directory [p]: a missing component is [ENOENT],
    a regular file on the way or at the end is [ENOTDIR]. *)
Fixpoint walk (p : Path) (n : node) : option errno :=
  match p with
  | [] => match n with Dir _ => None | File _ => Some ENOTDIR end
  | c :: p' =>
      match n with
      | File _ => Some ENOTDIR
      | Dir es =>
          match assoc c es with
          | Some child => walk p' child
          | None => Some ENOENT
          end
      end
  end.

(** The directory a path is an entry of must be there. *)
Definition walk_parent (p : Path) (fs : filesystem) : option errno :=
  walk (removelast p) (Dir fs).

(** The working directory and a root cannot be renamed or replaced. *)
Definition dot_or_root (p : Path) : bool :=
  match p with
  | [] => true
  | [c] => is_root c
  | _ => false
  end.

(** [src.rename(dst)], after rename(2), in the order the kernel checks:
    the directories of both paths must be there; neither path is the
    working directory or a root; the source must exist; a path is not
    moved below itself nor onto a directory it lies in; the same path is
    left alone; a file does not replace a directory, and a directory
    replaces only an empty directory. Otherwise the node is moved, and
    replaces what was at the destination. *)
Definition rename (src dst : Path) (fs : filesystem) : exn + filesystem :=
  let fail (e : errno) : exn + filesystem := inl (rename_error e src dst) in
  match walk_parent src fs with
  | Some e => fail e
  | None =>
  match walk_parent dst fs with
  | Some e => fail e
  | None =>
  if dot_or_root src || dot_or_root dst then fail EBUSY else
  match lookup src fs with
  | None => fail ENOENT
  | Some n =>
  if path_eqb src dst then inr fs else
  if is_prefix src dst then fail EINVAL else
  if is_prefix dst src then fail ENOTEMPTY else
  match n, lookup dst fs with
  | File _, Some (Dir _) => fail EISDIR
  | Dir _, Some (File _) => fail ENOTDIR
  | Dir _, Some (Dir (_ :: _)) => fail ENOTEMPTY
  | _, _ =>
      match remove_entries src fs with
      | Some fs1 =>
          match put_entries dst n fs1 with
          | Some fs2 => inr fs2
          | None => fail ENOENT
          end
      | None => fail EBUSY
      end
  end
  end
  end
  end.

(** [p.mkdir(parents=True, exist_ok=True)]: missing directories are
    created along [p]; an existing directory is left as it is; a file in
    the way is an error. *)
Fixpoint mkdir_entries (whole p : Path) (es : list (string * node))
  : exn + list (string * node) :=
  match p with
  | [] => inr es
  | c :: p' =>
      match assoc c es with
      | None =>
          match mkdir_entries whole p' [] with
          | inr sub => inr (set_entry c (Dir sub) es)
          | inl e => inl e
          end
      | Some (Dir sub) =>
          match mkdir_entries whole p' sub with
          | inr sub' => inr (set_entry c (Dir sub') es)
          | inl e => inl e
          end
      | Some (File _) =>
          match p' with
          | [] => inl (OSError "FileExistsError" "[Errno 17] File exists" whole)
          | _ => inl (OSError "NotADirectoryError" "[Errno 20] Not a directory" whole)
          end
      end
  end.

Definition mkdir_parents_exist_ok (p : Path) (fs : filesystem) : exn + filesystem :=
  mkdir_entries p p fs.

(** ** The external collaborators *)

(** The provider's in-memory model object: what it was built from and
    the device it lives on. *)
Record yolo := Yolo { yolo_source : string; yolo_device : string }.

(** [subprocess.CompletedProcess] *)
Record CompletedProcess := Completed {
  returncode : Z;
  stdout_of : string;
  stderr_of : string
}.

(** The calls the program makes, in the order it makes them. *)
Inductive event : Type :=
| Call (fn : string) (args : list string)
    (* one of the three stage functions is entered *)
| YOLO_new (arg : string)
    (* YOLO(arg) *)
| Model_to (device : string)
    (* model.to(device) *)
| Model_save (model : yolo) (filename : Path)
    (* model.save(filename) *)
| Model_export (model : yolo) (format : string) (simplify : bool) (opset : Z) (verbose : bool)
    (* model.export(format=, simplify=, opset=, verbose=) *)
| Subprocess_run (argv : list string) (capture_output text : bool).
    (* subprocess.run(argv, capture_output=, text=) *)

(** What the outside does at each call. Every function is arbitrary: it
    may raise, and it may change the filesystem as it likes. *)
Record externals := {
  ext_YOLO : string -> filesystem -> exn + (yolo * filesystem);
  ext_to : yolo -> string -> exn + yolo;
  ext_save : yolo -> Path -> filesystem -> exn + filesystem;
  ext_export : yolo -> string -> bool -> Z -> bool -> filesystem -> exn + filesystem;
  ext_run : list string -> filesystem -> exn + (CompletedProcess * filesystem)
}.

(** ** The state of a run *)

Record world := World {
  fs : filesystem;
  printed : list string;               (* one entry for each print *)
  trace : list (event * filesystem)    (* each event with the filesystem it saw *)
}.

Definition M (A : Type) : Type := world -> outcome A * world.

Definition ret {A} (a : A) : M A := fun w => (Returns a, w).

Definition bind {A B} (m : M A) (k : A -> M B) : M B :=
  fun w =>
    match m w with
    | (Returns a, w') => k a w'
    | (Raises e, w') => (Raises e, w')
    | (Exits c, w') => (Exits c, w')
    end.

Notation "x <- m ;; k" := (bind m (fun x => k))
  (at level 61, m at next level, right associativity).
Notation "m ;; k" := (bind m (fun _ => k))
  (at level 61, right associativity).

(** [try: body except Exception as e: handler(e)]. [SystemExit] is not
    an [Exception]: an exit inside [body] is not caught. *)
Definition try_except {A} (body : M A) (handler : exn -> M A) : M A :=
  fun w =>
    match body w with
    | (Raises e, w') => handler e w'
    | r => r
    end.

Definition sys_exit {A} (code : Z) : M A := fun w => (Exits code, w).

Definition print (s : string) : M unit :=
  fun w => (Returns tt, World (fs w) (printed w ++ [s])%list (trace w)).

Definition emit (ev : event) : M unit :=
  fun w => (Returns tt, World (fs w) (printed w) (trace w ++ [(ev, fs w)])%list).

(** An operation on the filesystem that may raise. *)
Definition fs_op (op : filesystem -> exn + filesystem) : M unit :=
  fun w =>
    match op (fs w) with
    | inr f => (Returns tt, World f (printed w) (trace w))
    | inl e => (Raises e, w)
    end.

(** An external call that returns a value and may change the filesystem. *)
Definition fs_call {A} (op : filesystem -> exn + (A * filesystem)) : M A :=
  fun w =>
    match op (fs w) with
    | inr (a, f) => (Returns a, World f (printed w) (trace w))
    | inl e => (Raises e, w)
    end.

Definition exists_ (p : Path) : M bool :=
  fun w => (Returns (path_exists p (fs w)), w).

(** ** The program *)

Section Program.

Variable E : externals.

(** [YOLO(arg)] *)
Definition YOLO (arg : string) : M yolo :=
  emit (YOLO_new arg) ;;
  fs_call (ext_YOLO E arg).

(** [model.to(device)] moves the object in place: the result is the
    state of the object the variable [model] refers to afterwards. *)
Definition model_to (model : yolo) (device : string) : M yolo :=
  emit (Model_to device) ;;
  fun w =>
    match ext_to E model device with
    | inr m => (Returns m, w)
    | inl e => (Raises e, w)
    end.

(** [model.save(filename)] *)
Definition model_save (model : yolo) (filename : Path) : M unit :=
  emit (Model_save model filename) ;;
  fs_op (ext_save E model filename).

(** [model.export(format=.., simplify=.., opset=.., verbose=..)] *)
Definition model_export (model : yolo) (format : string) (simplify : bool)
    (opset : Z) (verbose : bool) : M unit :=
  emit (Model_export model format simplify opset verbose) ;;
  fs_op (ext_export E model format simplify opset verbose).

(** [subprocess.run(argv, capture_output=.., text=..)]: returns when the
    child has ended, with its streams in the result. *)
Definition subprocess_run (argv : list string) (capture_output text : bool)
  : M CompletedProcess :=
  emit (Subprocess_run argv capture_output text) ;;
  fs_call (ext_run E argv).

Definition download_model (model_name : string) (save_path : Path) : M Path :=
  emit (Call "download_model" [model_name; str save_path]) ;;
  try_except
    (print ("Descargando el modelo " ++ model_name ++ "...") ;;
     model <- YOLO model_name ;;
     model <- model_to model "cpu" ;;
     let pt_path := save_path // (model_name ++ ".pt") in
     model_save model pt_path ;;
     print ("Modelo descargado y guardado en " ++ str pt_path) ;;
     ret pt_path)
    (fun e =>
       print ("Error al descargar el modelo: " ++ exn_str e) ;;
       sys_exit 1).

Definition export_to_onnx (pt_model_path onnx_model_path : Path) : M unit :=
  emit (Call "export_to_onnx" [str pt_model_path; str onnx_model_path]) ;;
  try_except
    (print ("Exportando el modelo " ++ str pt_model_path ++ " a ONNX...") ;;
     model <- YOLO (str pt_model_path) ;;
     model_export model "onnx" true 14 false ;;
     let exported_onnx := Path_of "yolov8n.onnx" in
     found <- exists_ exported_onnx ;;
     if found then
       fs_op (rename exported_onnx onnx_model_path) ;;
       print ("Modelo exportado a ONNX y guardado en " ++ str onnx_model_path)
     else
       print "Exportación a ONNX falló: archivo .onnx no encontrado." ;;
       sys_exit 1)
    (fun e =>
       print ("Error al exportar a ONNX: " ++ exn_str e) ;;
       sys_exit 1).

Definition convert_onnx_to_engine (onnx_model_path engine_path : Path)
    (precision : string) : M unit :=
  emit (Call "convert_onnx_to_engine"
          [str onnx_model_path; str engine_path; precision]) ;;
  try_except
    (print ("Convirtiendo " ++ str onnx_model_path
            ++ " a TensorRT .engine con precisión " ++ precision ++ "...") ;;
     result <- subprocess_run ["trtexec"; "--version"] true true ;;
     (if negb (returncode result =? 0)%Z then
        print "Error: trtexec no está disponible. Asegúrate de que TensorRT esté instalado y que trtexec esté en tu PATH." ;;
        sys_exit 1
      else ret tt) ;;
     let trtexec_cmd :=
       ["trtexec";
        "--onnx=" ++ str onnx_model_path;
        "--saveEngine=" ++ str engine_path;
        "--" ++ precision] in
     print ("Ejecutando comando: " ++ join " " trtexec_cmd) ;;
     process <- subprocess_run trtexec_cmd true true ;;
     (if negb (returncode process =? 0)%Z then
        print ("Error en trtexec:" ++ nl ++ stderr_of process) ;;
        sys_exit 1
      else ret tt) ;;
     print ("Conversión a TensorRT .engine completada y guardada en "
            ++ str engine_path))
    (fun e =>
       print ("Error al convertir a TensorRT: " ++ exn_str e) ;;
       sys_exit 1).

(** The names and paths [main] fixes. *)
Definition model_name : string := "yolov8n".
Definition save_directory : Path := Path_of "./models".
Definition pt_model_path : Path := save_directory // (model_name ++ ".pt").
Definition onnx_model_path : Path := save_directory // (model_name ++ ".onnx").
Definition engine_model_path : Path := save_directory // (model_name ++ ".engine").

Definition main : M unit :=
  fs_op (mkdir_parents_exist_ok save_directory) ;;
  (* Paso 1 *)
  have_pt <- exists_ pt_model_path ;;
  (if negb have_pt then
     download_model model_name save_directory ;; ret tt
   else
     print ("El modelo PyTorch ya existe en " ++ str pt_model_path
            ++ ". Saltando descarga.")) ;;
  (* Paso 2 *)
  have_onnx <- exists_ onnx_model_path ;;
  (if negb have_onnx then
     export_to_onnx pt_model_path onnx_model_path
   else
     print ("El modelo ONNX ya existe en " ++ str onnx_model_path
            ++ ". Saltando exportación.")) ;;
  (* Paso 3 *)
  have_engine <- exists_ engine_model_path ;;
  (if negb have_engine then
     convert_onnx_to_engine onnx_model_path engine_model_path "fp16"
   else
     print ("El modelo TensorRT .engine ya existe en " ++ str engine_model_path
            ++ ". Saltando conversión.")).

End Program.

(** ** Runs and what they show *)

(** A run that starts with nothing printed and nothing called yet. *)
Definition start (f : filesystem) : world := World f [] [].

(** What a computation started in [w] adds to the trace: its own calls,
    each with the filesystem it saw. *)
Definition steps_of {A} (m : M A) (w : world) : list (event * filesystem) :=
  skipn (length (trace w)) (trace (snd (m w))).

Definition calls_of {A} (m : M A) (w : world) : list event :=
  map fst (steps_of m w).

(** The file at [p] is there and has at least one byte. *)
Definition nonempty_file (p : Path) (f : filesystem) : bool :=
  match lookup p f with
  | Some (File d) => negb (String.eqb d "")
  | _ => false
  end.

(** The precision modes the docstring of [convert_onnx_to_engine] lists. *)
Definition known_precision (precision : string) : bool :=
  String.eqb precision "fp32" || String.eqb precision "fp16"
  || String.eqb precision "int8".

(** The provider's [save] leaves something at the path it was given
    whenever it returns. *)
Definition save_creates (E : externals) : Prop :=
  forall m p f f', ext_save E m p f = inr f' -> path_exists p f' = true.

(** Where a step of a run of [main] comes from: a stage is entered
    with the names and paths [main] fixes, when its output is missing;
    the provider saves to the path [main] then looks at. *)
Definition step_justified (E : externals) (x : event * filesystem) : Prop :=
  match fst x with
  | Call fn args =>
      (fn = "download_model"
       /\ args = [model_name; str save_directory]
       /\ path_exists pt_model_path (snd x) = false)
      \/ (fn = "export_to_onnx"
          /\ args = [str pt_model_path; str onnx_model_path]
          /\ path_exists onnx_model_path (snd x) = false
          /\ (save_creates E -> path_exists pt_model_path (snd x) = true))
      \/ (fn = "convert_onnx_to_engine"
          /\ args = [str onnx_model_path; str engine_model_path; "fp16"]
          /\ path_exists engine_model_path (snd x) = false
          /\ path_exists onnx_model_path (snd x) = true)
  | Model_save _ p => p = pt_model_path
  | _ => True
  end.

(** ** Concrete collaborators and filesystems *)

Definition write_file (p : Path) (d : string) (f : filesystem) : exn + filesystem :=
  match put_entries p (File d) f with
  | Some f' => inr f'
  | None => inl (OSError "FileNotFoundError" "[Errno 2] No such file or directory" p)
  end.

(** Everything works: the provider saves where it is told, the exporter
    writes [yolov8n.onnx] in the working directory, and the compiler
    writes the engine of the controller's run. *)
Definition all_fine : externals := {|
  ext_YOLO := fun arg f => inr (Yolo arg "cuda:0", f);
  ext_to := fun m device => inr (Yolo (yolo_source m) device);
  ext_save := fun m p f => write_file p ("weights of " ++ yolo_source m) f;
  ext_export := fun m _ _ _ _ f => write_file ["yolov8n.onnx"] "graph" f;
  ext_run := fun argv f =>
    match argv with
    | [_; _] => inr (Completed 0 "TensorRT v8" "", f)
    | _ =>
        match write_file ["models"; "yolov8n.engine"] "plan" f with
        | inr f' => inr (Completed 0 "" "", f')
        | inl e => inl e
        end
    end
|}.

(** The version probe of the compiler ends with status 127. *)
Definition probe_fails : externals := {|
  ext_YOLO := ext_YOLO all_fine;
  ext_to := ext_to all_fine;
  ext_save := ext_save all_fine;
  ext_export := ext_export all_fine;
  ext_run := fun argv f => inr (Completed 127 "" "trtexec: not found", f)
|}.

(** The probe succeeds and the compilation ends with status 1. *)
Definition compile_fails : externals := {|
  ext_YOLO := ext_YOLO all_fine;
  ext_to := ext_to all_fine;
  ext_save := ext_save all_fine;
  ext_export := ext_export all_fine;
  ext_run := fun argv f =>
    match argv with
    | [_; _] => inr (Completed 0 "TensorRT v8" "", f)
    | _ => inr (Completed 1 "" "[E] Engine build failed", f)
    end
|}.

(** The exporter raises. *)
Definition export_raises : externals := {|
  ext_YOLO := ext_YOLO all_fine;
  ext_to := ext_to all_fine;
  ext_save := ext_save all_fine;
  ext_export := fun _ _ _ _ _ _ => inl (Exn "ImportError" "No module named 'onnx'");
  ext_run := ext_run all_fine
|}.

(** The exporter returns, having written [yolov8s.onnx]. *)
Definition export_elsewhere : externals := {|
  ext_YOLO := ext_YOLO all_fine;
  ext_to := ext_to all_fine;
  ext_save := ext_save all_fine;
  ext_export := fun m _ _ _ _ f => write_file ["yolov8s.onnx"] "graph of s" f;
  ext_run := ext_run all_fine
|}.

(** Only the serialized model is there. *)
Definition fs_downloaded : filesystem :=
  [("models", Dir [("yolov8n.pt", File "weights of yolov8n")])].

(** The serialized model of another model, and no [yolov8n.onnx]. *)
Definition fs_other_model : filesystem :=
  [("models", Dir [("yolov8s.pt", File "weights of yolov8s")])].

(** An empty output directory. *)
Definition fs_fresh : filesystem := [("models", Dir [])].

(** The three artifacts of an earlier run. *)
Definition fs_complete : filesystem :=
  [("models", Dir [("yolov8n.pt", File "weights of yolov8n");
                   ("yolov8n.onnx", File "graph");
                   ("yolov8n.engine", File "plan")])].

(** A serialized model of zero bytes and nothing else. *)
Definition fs_empty_pt : filesystem :=
  [("models", Dir [("yolov8n.pt", File "")])].

(** An interchange artifact of zero bytes beside a serialized model. *)
Definition fs_empty_onnx : filesystem :=
  [("models", Dir [("yolov8n.pt", File "weights of yolov8n");
                   ("yolov8n.onnx", File "")])].

(** A [yolov8n.onnx] left in the working directory by an earlier export
    of another model. *)
Definition fs_stale : filesystem :=
  [("models", Dir [("yolov8s.pt", File "weights of yolov8s")]);
   ("yolov8n.onnx", File "graph of n")].

(** ** More collaborators and filesystems *)

(** The names of the stage functions entered, in the order of the run. *)
Fixpoint stages_entered (evs : list event) : list string :=
  match evs with
  | [] => []
  | Call fn _ :: rest => fn :: stages_entered rest
  | _ :: rest => stages_entered rest
  end.

(** [xs] can be read off [ys] from left to right, skipping entries. *)
Fixpoint subsequence (xs ys : list string) : bool :=
  match ys with
  | [] => match xs with [] => true | _ :: _ => false end
  | y :: ys' =>
      match xs with
      | [] => true
      | x :: xs' =>
          if String.eqb x y then subsequence xs' ys' else subsequence xs ys'
      end
  end.

(** The order in which [main] goes through the stages. *)
Definition pipeline_order : list string :=
  ["download_model"; "export_to_onnx"; "convert_onnx_to_engine"].

(** The model provider cannot be reached. *)
Definition no_network : externals := {|
  ext_YOLO := fun arg f => inl (Exn "ConnectionError" "Download failure");
  ext_to := ext_to all_fine;
  ext_save := ext_save all_fine;
  ext_export := ext_export all_fine;
  ext_run := ext_run all_fine
|}.

(** No [trtexec] on the search path: [subprocess.run] raises. *)
Definition trtexec_missing : externals := {|
  ext_YOLO := ext_YOLO all_fine;
  ext_to := ext_to all_fine;
  ext_save := ext_save all_fine;
  ext_export := ext_export all_fine;
  ext_run := fun argv f =>
    inl (Exn "FileNotFoundError" "[Errno 2] No such file or directory: 'trtexec'")
|}.

(** A compiler that ends with status 0 and writes nothing. *)
Definition silent_compiler : externals := {|
  ext_YOLO := ext_YOLO all_fine;
  ext_to := ext_to all_fine;
  ext_save := ext_save all_fine;
  ext_export := ext_export all_fine;
  ext_run := fun argv f => inr (Completed 0 "" "", f)
|}.

(** A regular file called [models] where the output directory should be. *)
Definition fs_blocked : filesystem := [("models", File "not a directory")].

(** The serialized model and the interchange artifact, and no engine. *)
Definition fs_exported : filesystem :=
  [("models", Dir [("yolov8n.pt", File "weights of yolov8n");
                   ("yolov8n.onnx", File "graph")])].

(** An output directory, and a [/tmp] to save to by an absolute name. *)
Definition fs_with_tmp : filesystem :=
  [("models", Dir []); ("/", Dir [("tmp", Dir [])])].

(** An engine left by an earlier run, and neither of its inputs. *)
Definition fs_engine_only : filesystem :=
  [("models", Dir [("yolov8n.engine", File "plan")])].

(** ** The controller for any name and directory *)

(** The body of [main] with the model name and the output directory it
    fixes left open; [main] is its instance at ["yolov8n"] and
    [Path("./models")]. *)
Definition main_with (E : externals) (model_name : string)
    (save_directory : Path) : M unit :=
  let pt_model_path := save_directory // (model_name ++ ".pt") in
  let onnx_model_path := save_directory // (model_name ++ ".onnx") in
  let engine_model_path := save_directory // (model_name ++ ".engine") in
  fs_op (mkdir_parents_exist_ok save_directory) ;;
  have_pt <- exists_ pt_model_path ;;
  (if negb have_pt then
     download_model E model_name save_directory ;; ret tt
   else
     print ("El modelo PyTorch ya existe en " ++ str pt_model_path
            ++ ". Saltando descarga.")) ;;
  have_onnx <- exists_ onnx_model_path ;;
  (if negb have_onnx then
     export_to_onnx E pt_model_path onnx_model_path
   else
     print ("El modelo ONNX ya existe en " ++ str onnx_model_path
            ++ ". Saltando exportación.")) ;;
  have_engine <- exists_ engine_model_path ;;
  (if negb have_engine then
     convert_onnx_to_engine E onnx_model_path engine_model_path "fp16"
   else
     print ("El modelo TensorRT .engine ya existe en " ++ str engine_model_path
            ++ ". Saltando conversión.")).

(** The string has a slash in it. *)
Fixpoint has_slash (s : string) : bool :=
  match s with
  | EmptyString => false
  | String a s' => Ascii.eqb a "/" || has_slash s'
  end.

(** A step of a run of [main_with] uses the names and paths computed
    from the name and the directory, and no other. *)
Definition step_uses_paths (name : string) (dir : Path)
    (x : event * filesystem) : Prop :=
  match fst x with
  | Call fn args =>
      In (fn, args)
         [("download_model", [name; str dir]);
          ("export_to_onnx",
           [str (dir // (name ++ ".pt")); str (dir // (name ++ ".onnx"))]);
          ("convert_onnx_to_engine",
           [str (dir // (name ++ ".onnx")); str (dir // (name ++ ".engine"));
            "fp16"])]
  | Model_save _ p => p = dir // (name ++ ".pt")
  | _ => True
  end.

(** An output directory called [out], empty. *)
Definition fs_out : filesystem := [("out", Dir [])].

(** ** Facts about the filesystem *)

Section FilesystemFacts.

Context {A : Type}.

Lemma assoc_set_entry (k : string) (v : A) es :
  assoc k (set_entry k v es) = Some v.
Proof.
  induction es as [|[k' v'] rest IH]; simpl.
  - now rewrite String.eqb_refl.
  - destruct (String.eqb k k') eqn:Hk; simpl.
    + now rewrite String.eqb_refl.
    + now rewrite Hk.
Qed.

Lemma set_entry_same (k : string) (v : A) es :
  assoc k es = Some v -> set_entry k v es = es.
Proof.
  induction es as [|[k' v'] rest IH]; simpl; [discriminate|].
  destruct (String.eqb k k') eqn:Hk; intros H.
  - apply String.eqb_eq in Hk. congruence.
  - now rewrite IH.
Qed.

End FilesystemFacts.

Lemma put_entries_lookup p new es es' :
  put_entries p new es = Some es' -> lookup p es' = Some new.
Proof.
  unfold lookup. revert es es'.
  induction p as [|c p' IH]; intros es es'; [discriminate|].
  destruct p' as [|c2 p2].
  - simpl. intros [= <-]. now rewrite assoc_set_entry.
  - change (put_entries (c :: c2 :: p2) new es)
      with (match assoc c es with
            | Some (Dir sub) =>
                match put_entries (c2 :: p2) new sub with
                | Some sub' => Some (set_entry c (Dir sub') es)
                | None => None
                end
            | _ => None
            end).
    destruct (assoc c es) as [[d|sub]|]; try discriminate.
    destruct (put_entries (c2 :: p2) new sub) as [sub'|] eqn:Hput; try discriminate.
    intros [= <-].
    change (lookup_node (c :: c2 :: p2) (Dir (set_entry c (Dir sub') es)))
      with (match assoc c (set_entry c (Dir sub') es) with
            | Some child => lookup_node (c2 :: p2) child
            | None => None
            end).
    rewrite assoc_set_entry. now apply IH with (es := sub).
Qed.

(** A rename that succeeds puts at the destination what was at the
    source. *)
Lemma rename_moves src dst f f' :
  rename src dst f = inr f' -> lookup dst f' = lookup src f.
Proof.
  unfold rename.
  destruct (walk_parent src f); [discriminate|].
  destruct (walk_parent dst f); [discriminate|].
  destruct (dot_or_root src || dot_or_root dst); [discriminate|].
  destruct (lookup src f) as [n|] eqn:Hsrc; [|discriminate].
  unfold path_eqb. destruct (list_eq_dec string_dec src dst) as [->|Hne].
  { intros [= <-]. exact Hsrc. }
  destruct (is_prefix src dst); [discriminate|].
  destruct (is_prefix dst src); [discriminate|].
  assert (Hmove : match remove_entries src f with
                  | Some fs1 =>
                      match put_entries dst n fs1 with
                      | Some fs2 => inr fs2
                      | None => inl (rename_error ENOENT src dst)
                      end
                  | None => inl (rename_error EBUSY src dst)
                  end = inr f' -> lookup dst f' = Some n).
  { destruct (remove_entries src f) as [fs1|]; [|discriminate].
    destruct (put_entries dst n fs1) as [fs2|] eqn:Hput; [|discriminate].
    intros [= <-]. eapply put_entries_lookup; eassumption. }
  destruct n as [d|es]; destruct (lookup dst f) as [[d'|[|e es']]|];
    try discriminate; exact Hmove.
Qed.

(** A rename that succeeds leaves something at the destination. *)
Lemma rename_populates src dst f f' :
  rename src dst f = inr f' -> path_exists dst f' = true.
Proof.
  intros H. unfold path_exists. rewrite (rename_moves _ _ _ _ H).
  unfold rename in H.
  destruct (walk_parent src f); [discriminate|].
  destruct (walk_parent dst f); [discriminate|].
  destruct (dot_or_root src || dot_or_root dst); [discriminate|].
  now destruct (lookup src f).
Qed.

(** A path with two components exists only below a directory. *)
Lemma exists_below_dir c c' f :
  path_exists [c; c'] f = true -> exists sub, assoc c f = Some (Dir sub).
Proof.
  unfold path_exists, lookup. simpl.
  destruct (assoc c f) as [[d|sub]|]; try discriminate.
  eauto.
Qed.

(** [mkdir(parents=True, exist_ok=True)] leaves an existing directory alone. *)
Lemma mkdir_existing c sub f :
  assoc c f = Some (Dir sub) -> mkdir_parents_exist_ok [c] f = inr f.
Proof.
  intros H. unfold mkdir_parents_exist_ok. simpl. rewrite H.
  now rewrite (set_entry_same _ _ _ H).
Qed.

(** ** Tactics for stepping through a run *)

Ltac unfold_run :=
  unfold download_model, export_to_onnx, convert_onnx_to_engine, main,
    YOLO, model_to, model_save, model_export, subprocess_run,
    bind, try_except, emit, print, sys_exit, ret, fs_op, fs_call, exists_.

#[local] Arguments download_model : simpl never.
#[local] Arguments export_to_onnx : simpl never.
#[local] Arguments convert_onnx_to_engine : simpl never.
#[local] Arguments main : simpl never.
#[local] Arguments rename : simpl never.

Lemma steps_of_eq {A} (m : M A) w new :
  trace (snd (m w)) = (trace w ++ new)%list -> steps_of m w = new.
Proof.
  intros H. unfold steps_of. rewrite H, skipn_app, skipn_all, Nat.sub_diag.
  reflexivity.
Qed.

Lemma calls_of_eq {A} (m : M A) w new :
  trace (snd (m w)) = (trace w ++ new)%list -> calls_of m w = map fst new.
Proof. intros H. unfold calls_of. now rewrite (steps_of_eq m w new H). Qed.

(** [sys.exit] ends the run: what follows in the caller is not run, and
    an enclosing [except Exception] does not catch it. *)
Lemma exit_skips_rest {A B} (m : M A) (k : A -> M B) w code w' :
  m w = (Exits code, w') -> bind m k w = (Exits code, w').
Proof. intros H. unfold bind. now rewrite H. Qed.

Lemma exit_not_caught {A} (m : M A) handler w code w' :
  m w = (Exits code, w') -> try_except m handler w = (Exits code, w').
Proof. intros H. unfold try_except. now rewrite H. Qed.

(** ** The compiler invoker *)

Section CompilerInvoker.

Variable E : externals.
Variables onnx engine : Path.
Variable precision : string.

Let probe := ["trtexec"; "--version"].
Let command :=
  ["trtexec"; "--onnx=" ++ str onnx; "--saveEngine=" ++ str engine;
   "--" ++ precision].
Let entered := Call "convert_onnx_to_engine" [str onnx; str engine; precision].

(** What one call of [convert_onnx_to_engine] does, by what the outside
    does: its outcome, the filesystem it leaves, the calls it makes and,
    where the compilation fails, the last line it prints. *)
Lemma convert_onnx_to_engine_summary w :
  let r := convert_onnx_to_engine E onnx engine precision w in
  match ext_run E probe (fs w) with
  | inl _ =>
      fst r = Exits 1 /\ fs (snd r) = fs w
      /\ steps_of (convert_onnx_to_engine E onnx engine precision) w
         = [(entered, fs w); (Subprocess_run probe true true, fs w)]
  | inr (cp, f1) =>
      if (returncode cp =? 0)%Z then
        steps_of (convert_onnx_to_engine E onnx engine precision) w
        = [(entered, fs w); (Subprocess_run probe true true, fs w);
           (Subprocess_run command true true, f1)]
        /\ match ext_run E command f1 with
           | inl _ => fst r = Exits 1 /\ fs (snd r) = f1
           | inr (cp2, f2) =>
               fs (snd r) = f2
               /\ if (returncode cp2 =? 0)%Z then fst r = Returns tt
                  else fst r = Exits 1
                       /\ last (printed (snd r)) ""
                          = "Error en trtexec:" ++ nl ++ stderr_of cp2
           end
      else
        fst r = Exits 1 /\ fs (snd r) = f1
        /\ steps_of (convert_onnx_to_engine E onnx engine precision) w
           = [(entered, fs w); (Subprocess_run probe true true, fs w)]
  end.
Proof.
  subst probe command entered. cbn zeta.
  match goal with
  | |- context [steps_of ?m w] =>
      assert (Hsteps : forall new, trace (snd (m w)) = (trace w ++ new)%list ->
                                   steps_of m w = new)
        by apply steps_of_eq
  end.
  revert Hsteps. unfold_run. cbn. intros Hsteps.
  destruct (ext_run E ["trtexec"; "--version"] (fs w)) as [e|[cp f1]]; cbn in *.
  { repeat split. apply Hsteps. now rewrite <- !app_assoc. }
  destruct (returncode cp =? 0)%Z; cbn in *.
  2:{ repeat split. apply Hsteps. now rewrite <- !app_assoc. }
  match goal with
  | |- context [ext_run E ?argv f1] =>
      destruct (ext_run E argv f1) as [e|[cp2 f2]]
  end; cbn in *.
  { repeat split. apply Hsteps. now rewrite <- !app_assoc. }
  destruct (returncode cp2 =? 0)%Z; cbn in *.
  - repeat split. apply Hsteps. now rewrite <- !app_assoc.
  - repeat split; [apply Hsteps; now rewrite <- !app_assoc|].
    now rewrite last_last.
Qed.

End CompilerInvoker.

(** C4 (tool-probe fail-fast): whenever the version probe of the external
    compiler returns a non-zero status, [convert_onnx_to_engine] ends in
    [sys.exit(1)], so the exit status is not 0, and the only subprocess
    it has run is the probe: the compilation command is never started. *)
Theorem C4_probe_failure_exits_before_compile
    (E : externals) (onnx engine : Path) (precision : string) (w : world)
    (cp : CompletedProcess) (f1 : filesystem) :
  ext_run E ["trtexec"; "--version"] (fs w) = inr (cp, f1) ->
  returncode cp <> 0%Z ->
  fst (convert_onnx_to_engine E onnx engine precision w) = Exits 1
  /\ exit_status (fst (convert_onnx_to_engine E onnx engine precision w)) <> 0%Z
  /\ calls_of (convert_onnx_to_engine E onnx engine precision) w
     = [Call "convert_onnx_to_engine" [str onnx; str engine; precision];
        Subprocess_run ["trtexec"; "--version"] true true].
Proof.
  intros Hrun Hrc.
  pose proof (convert_onnx_to_engine_summary E onnx engine precision w) as H.
  cbn zeta in H. rewrite Hrun in H.
  apply Z.eqb_neq in Hrc. rewrite Hrc in H. destruct H as (Ho & _ & Hs).
  unfold calls_of. rewrite Ho, Hs. cbn. repeat split. discriminate.
Qed.

Lemma C4_witness :
  fst (convert_onnx_to_engine probe_fails
         ["models"; "yolov8n.onnx"] ["models"; "yolov8n.engine"] "fp16"
         (start fs_downloaded)) = Exits 1
  /\ exit_status (fst (convert_onnx_to_engine probe_fails
         ["models"; "yolov8n.onnx"] ["models"; "yolov8n.engine"] "fp16"
         (start fs_downloaded))) <> 0%Z
  /\ calls_of (convert_onnx_to_engine probe_fails
         ["models"; "yolov8n.onnx"] ["models"; "yolov8n.engine"] "fp16")
       (start fs_downloaded)
     = [Call "convert_onnx_to_engine"
          [str ["models"; "yolov8n.onnx"]; str ["models"; "yolov8n.engine"]; "fp16"];
        Subprocess_run ["trtexec"; "--version"] true true].
Proof.
  apply (C4_probe_failure_exits_before_compile probe_fails
           ["models"; "yolov8n.onnx"] ["models"; "yolov8n.engine"] "fp16"
           (start fs_downloaded)
           (Completed 127 "" "trtexec: not found") fs_downloaded).
  - reflexivity.
  - cbn. discriminate.
Defined.

(** C7 (compilation failure reporting): the compilation is run through
    [subprocess.run] with [capture_output=True], which returns only when
    the child has ended and holds its whole standard error; whenever that
    run ends with a non-zero status, the last thing printed is
    ["Error en trtexec:"], a newline and the captured standard error,
    and the function ends in [sys.exit(1)]. *)
Theorem C7_compile_failure_reports_stderr
    (E : externals) (onnx engine : Path) (precision : string) (w : world)
    (cp : CompletedProcess) (f1 : filesystem)
    (cp2 : CompletedProcess) (f2 : filesystem) :
  ext_run E ["trtexec"; "--version"] (fs w) = inr (cp, f1) ->
  returncode cp = 0%Z ->
  ext_run E ["trtexec"; "--onnx=" ++ str onnx; "--saveEngine=" ++ str engine;
             "--" ++ precision] f1 = inr (cp2, f2) ->
  returncode cp2 <> 0%Z ->
  fst (convert_onnx_to_engine E onnx engine precision w) = Exits 1
  /\ exit_status (fst (convert_onnx_to_engine E onnx engine precision w)) <> 0%Z
  /\ calls_of (convert_onnx_to_engine E onnx engine precision) w
     = [Call "convert_onnx_to_engine" [str onnx; str engine; precision];
        Subprocess_run ["trtexec"; "--version"] true true;
        Subprocess_run
          ["trtexec"; "--onnx=" ++ str onnx; "--saveEngine=" ++ str engine;
           "--" ++ precision] true true]
  /\ last (printed (snd (convert_onnx_to_engine E onnx engine precision w))) ""
     = "Error en trtexec:" ++ nl ++ stderr_of cp2.
Proof.
  intros Hrun Hrc Hrun2 Hrc2.
  pose proof (convert_onnx_to_engine_summary E onnx engine precision w) as H.
  cbn zeta in H. rewrite Hrun, Hrc in H. cbn in H.
  cbn in Hrun2. rewrite Hrun2 in H.
  apply Z.eqb_neq in Hrc2. rewrite Hrc2 in H.
  destruct H as (Hs & _ & Ho & Hlast).
  unfold calls_of. rewrite Ho, Hs, Hlast. cbn. repeat split. discriminate.
Qed.

Lemma C7_witness :
  fst (convert_onnx_to_engine compile_fails
         ["models"; "yolov8n.onnx"] ["models"; "yolov8n.engine"] "fp16"
         (start fs_downloaded)) = Exits 1
  /\ exit_status (fst (convert_onnx_to_engine compile_fails
         ["models"; "yolov8n.onnx"] ["models"; "yolov8n.engine"] "fp16"
         (start fs_downloaded))) <> 0%Z
  /\ calls_of (convert_onnx_to_engine compile_fails
         ["models"; "yolov8n.onnx"] ["models"; "yolov8n.engine"] "fp16")
       (start fs_downloaded)
     = [Call "convert_onnx_to_engine"
          [str ["models"; "yolov8n.onnx"]; str ["models"; "yolov8n.engine"]; "fp16"];
        Subprocess_run ["trtexec"; "--version"] true true;
        Subprocess_run
          ["trtexec"; "--onnx=" ++ str ["models"; "yolov8n.onnx"];
           "--saveEngine=" ++ str ["models"; "yolov8n.engine"];
           "--" ++ "fp16"] true true]
  /\ last (printed (snd (convert_onnx_to_engine compile_fails
           ["models"; "yolov8n.onnx"] ["models"; "yolov8n.engine"] "fp16"
           (start fs_downloaded)))) ""
     = "Error en trtexec:" ++ nl
       ++ stderr_of (Completed 1 "" "[E] Engine build failed").
Proof.
  apply (C7_compile_failure_reports_stderr compile_fails
           ["models"; "yolov8n.onnx"] ["models"; "yolov8n.engine"] "fp16"
           (start fs_downloaded)
           (Completed 0 "TensorRT v8" "") fs_downloaded
           (Completed 1 "" "[E] Engine build failed") fs_downloaded).
  - reflexivity.
  - reflexivity.
  - reflexivity.
  - cbn. discriminate.
Defined.

(** C3, as stated, fails: nothing validates the precision. With a
    compiler that answers the probe, the value ["bogus"], which is none
    of [fp32], [fp16], [int8], reaches the subprocess as the flag
    [--bogus], and the function returns. *)
Lemma C3_counterexample :
  known_precision "bogus" = false
  /\ calls_of (convert_onnx_to_engine all_fine
        ["models"; "yolov8n.onnx"] ["models"; "yolov8n.engine"] "bogus")
       (start fs_complete)
     = [Call "convert_onnx_to_engine"
          ["models/yolov8n.onnx"; "models/yolov8n.engine"; "bogus"];
        Subprocess_run ["trtexec"; "--version"] true true;
        Subprocess_run ["trtexec"; "--onnx=models/yolov8n.onnx";
                        "--saveEngine=models/yolov8n.engine"; "--bogus"]
          true true]
  /\ fst (convert_onnx_to_engine all_fine
           ["models"; "yolov8n.onnx"] ["models"; "yolov8n.engine"] "bogus"
           (start fs_complete)) = Returns tt.
Proof. repeat split. Qed.

(** C3, amended (precision pass-through, no validation): for every
    precision string, whenever the version probe returns status 0 the
    compilation is called with the argument list [trtexec],
    [--onnx=<input>], [--saveEngine=<output>] and [--] followed by the
    precision exactly as given: [fp16] gives [--fp16], [int8] gives
    [--int8], and any other value is passed on in the same way. *)
Theorem C3_precision_passed_as_given
    (E : externals) (onnx engine : Path) (precision : string) (w : world)
    (cp : CompletedProcess) (f1 : filesystem) :
  ext_run E ["trtexec"; "--version"] (fs w) = inr (cp, f1) ->
  returncode cp = 0%Z ->
  calls_of (convert_onnx_to_engine E onnx engine precision) w
  = [Call "convert_onnx_to_engine" [str onnx; str engine; precision];
     Subprocess_run ["trtexec"; "--version"] true true;
     Subprocess_run
       ["trtexec"; "--onnx=" ++ str onnx; "--saveEngine=" ++ str engine;
        "--" ++ precision] true true].
Proof.
  intros Hrun Hrc.
  pose proof (convert_onnx_to_engine_summary E onnx engine precision w) as H.
  cbn zeta in H. rewrite Hrun, Hrc in H. cbn in H.
  destruct H as (Hs & _).
  unfold calls_of. now rewrite Hs.
Qed.

Lemma C3_witness :
  calls_of (convert_onnx_to_engine all_fine
     ["models"; "yolov8n.onnx"] ["models"; "yolov8n.engine"] "int8")
    (start fs_downloaded)
  = [Call "convert_onnx_to_engine"
       [str ["models"; "yolov8n.onnx"]; str ["models"; "yolov8n.engine"]; "int8"];
     Subprocess_run ["trtexec"; "--version"] true true;
     Subprocess_run
       ["trtexec"; "--onnx=" ++ str ["models"; "yolov8n.onnx"];
        "--saveEngine=" ++ str ["models"; "yolov8n.engine"];
        "--" ++ "int8"] true true].
Proof.
  apply (C3_precision_passed_as_given all_fine
           ["models"; "yolov8n.onnx"] ["models"; "yolov8n.engine"] "int8"
           (start fs_downloaded) (Completed 0 "TensorRT v8" "") fs_downloaded).
  - reflexivity.
  - reflexivity.
Defined.

(** The flag the controller's own call ends up with. *)
Example fp16_flag :
  calls_of (convert_onnx_to_engine all_fine
    ["models"; "yolov8n.onnx"] ["models"; "yolov8n.engine"] "fp16")
    (start fs_downloaded)
  = [Call "convert_onnx_to_engine"
       ["models/yolov8n.onnx"; "models/yolov8n.engine"; "fp16"];
     Subprocess_run ["trtexec"; "--version"] true true;
     Subprocess_run ["trtexec"; "--onnx=models/yolov8n.onnx";
                     "--saveEngine=models/yolov8n.engine"; "--fp16"] true true].
Proof. reflexivity. Qed.

(** ** The converter *)

Section Converter.

Variable E : externals.
Variables pt onnx : Path.

Let entered := Call "export_to_onnx" [str pt; str onnx].
Let exported_onnx : Path := ["yolov8n.onnx"].

(** What one call of [export_to_onnx] does, by what the outside does:
    its outcome, the filesystem it leaves, and the calls it makes. *)
Lemma export_to_onnx_summary w :
  let r := export_to_onnx E pt onnx w in
  match ext_YOLO E (str pt) (fs w) with
  | inl _ =>
      fst r = Exits 1 /\ fs (snd r) = fs w
      /\ steps_of (export_to_onnx E pt onnx) w
         = [(entered, fs w); (YOLO_new (str pt), fs w)]
  | inr (m, f1) =>
      steps_of (export_to_onnx E pt onnx) w
      = [(entered, fs w); (YOLO_new (str pt), fs w);
         (Model_export m "onnx" true 14 false, f1)]
      /\ match ext_export E m "onnx" true 14%Z false f1 with
         | inl _ => fst r = Exits 1 /\ fs (snd r) = f1
         | inr f2 =>
             if path_exists exported_onnx f2 then
               match rename exported_onnx onnx f2 with
               | inr f3 => fst r = Returns tt /\ fs (snd r) = f3
               | inl _ => fst r = Exits 1 /\ fs (snd r) = f2
               end
             else
               fst r = Exits 1 /\ fs (snd r) = f2
               /\ last (printed (snd r)) ""
                  = "Exportación a ONNX falló: archivo .onnx no encontrado."
         end
  end.
Proof.
  subst entered exported_onnx. cbn zeta.
  assert (Hsteps : forall new,
             trace (snd (export_to_onnx E pt onnx w)) = (trace w ++ new)%list ->
             steps_of (export_to_onnx E pt onnx) w = new)
    by apply steps_of_eq.
  revert Hsteps. unfold_run. cbn. intros Hsteps.
  destruct (ext_YOLO E (str pt) (fs w)) as [e|[m f1]]; cbn in *.
  { repeat split. apply Hsteps. now rewrite <- !app_assoc. }
  destruct (ext_export E m "onnx" true 14%Z false f1) as [e|f2]; cbn in *.
  { repeat split. apply Hsteps. now rewrite <- !app_assoc. }
  destruct (path_exists ["yolov8n.onnx"] f2); cbn in *.
  - destruct (rename ["yolov8n.onnx"] onnx f2) as [e|f3]; cbn in *;
      (repeat split; apply Hsteps; now rewrite <- !app_assoc).
  - repeat split; [apply Hsteps; now rewrite <- !app_assoc|].
    now rewrite last_last.
Qed.

(** A call that returns has left something at the path it was asked
    to fill. *)
Lemma export_to_onnx_returns w :
  fst (export_to_onnx E pt onnx w) = Returns tt ->
  path_exists onnx (fs (snd (export_to_onnx E pt onnx w))) = true.
Proof.
  pose proof (export_to_onnx_summary w) as H. cbn zeta in H.
  destruct (ext_YOLO E (str pt) (fs w)) as [e|[m f1]].
  { destruct H as (-> & _). discriminate. }
  destruct H as (_ & H).
  destruct (ext_export E m "onnx" true 14%Z false f1) as [e|f2].
  { destruct H as (-> & _). discriminate. }
  subst exported_onnx.
  destruct (path_exists ["yolov8n.onnx"] f2).
  - destruct (rename ["yolov8n.onnx"] onnx f2) as [e|f3] eqn:Hren.
    + destruct H as (-> & _). discriminate.
    + destruct H as (_ & ->). intros _. eapply rename_populates; eassumption.
  - destruct H as (-> & _). discriminate.
Qed.

End Converter.

(** C5 (converter failure modes): in [export_to_onnx], (1) an export call
    that raises and (2) an export call that returns with nothing at the
    expected output [yolov8n.onnx] both end in [sys.exit(1)], a non-zero
    exit status; and (3) whenever the function returns, the interchange
    path it was given exists. *)
Theorem C5_converter_failures_exit
    (E : externals) (pt onnx : Path) (w : world) :
  (forall m f1 e,
      ext_YOLO E (str pt) (fs w) = inr (m, f1) ->
      ext_export E m "onnx" true 14%Z false f1 = inl e ->
      fst (export_to_onnx E pt onnx w) = Exits 1
      /\ exit_status (fst (export_to_onnx E pt onnx w)) <> 0%Z)
  /\ (forall m f1 f2,
      ext_YOLO E (str pt) (fs w) = inr (m, f1) ->
      ext_export E m "onnx" true 14%Z false f1 = inr f2 ->
      path_exists (Path_of "yolov8n.onnx") f2 = false ->
      fst (export_to_onnx E pt onnx w) = Exits 1
      /\ exit_status (fst (export_to_onnx E pt onnx w)) <> 0%Z)
  /\ (fst (export_to_onnx E pt onnx w) = Returns tt ->
      path_exists onnx (fs (snd (export_to_onnx E pt onnx w))) = true).
Proof.
  pose proof (export_to_onnx_summary E pt onnx w) as H. cbn zeta in H.
  split; [|split].
  - intros m f1 e Hload Hexp. rewrite Hload, Hexp in H.
    destruct H as (_ & -> & _). split; [reflexivity | discriminate].
  - intros m f1 f2 Hload Hexp Hmiss.
    change (Path_of "yolov8n.onnx") with ["yolov8n.onnx"] in Hmiss.
    rewrite Hload, Hexp, Hmiss in H.
    destruct H as (_ & -> & _). split; [reflexivity | discriminate].
  - apply export_to_onnx_returns.
Qed.

Lemma C5_witness :
  (fst (export_to_onnx export_raises
          ["models"; "yolov8n.pt"] ["models"; "yolov8n.onnx"]
          (start fs_downloaded)) = Exits 1
   /\ exit_status (fst (export_to_onnx export_raises
          ["models"; "yolov8n.pt"] ["models"; "yolov8n.onnx"]
          (start fs_downloaded))) <> 0%Z)
  /\ (fst (export_to_onnx export_elsewhere
          ["models"; "yolov8s.pt"] ["models"; "yolov8s.onnx"]
          (start fs_other_model)) = Exits 1
      /\ exit_status (fst (export_to_onnx export_elsewhere
          ["models"; "yolov8s.pt"] ["models"; "yolov8s.onnx"]
          (start fs_other_model))) <> 0%Z)
  /\ path_exists ["models"; "yolov8n.onnx"]
       (fs (snd (export_to_onnx all_fine
          ["models"; "yolov8n.pt"] ["models"; "yolov8n.onnx"]
          (start fs_downloaded)))) = true.
Proof.
  split; [|split].
  - apply (proj1 (C5_converter_failures_exit export_raises
             ["models"; "yolov8n.pt"] ["models"; "yolov8n.onnx"]
             (start fs_downloaded))
             (Yolo "models/yolov8n.pt" "cuda:0") fs_downloaded
             (Exn "ImportError" "No module named 'onnx'"));
      reflexivity.
  - apply (proj1 (proj2 (C5_converter_failures_exit export_elsewhere
             ["models"; "yolov8s.pt"] ["models"; "yolov8s.onnx"]
             (start fs_other_model)))
             (Yolo "models/yolov8s.pt" "cuda:0") fs_other_model
             [("models", Dir [("yolov8s.pt", File "weights of yolov8s")]);
              ("yolov8s.onnx", File "graph of s")]);
      reflexivity.
  - apply (proj2 (proj2 (C5_converter_failures_exit all_fine
             ["models"; "yolov8n.pt"] ["models"; "yolov8n.onnx"]
             (start fs_downloaded))));
      reflexivity.
Defined.

(** C6, as stated, fails: the exporter wrote [yolov8s.onnx], a name other
    than [yolov8n.onnx], and returned; a [yolov8n.onnx] left by an
    earlier export was in the working directory; the check on the
    literal path passes, the function returns instead of exiting, and
    the old graph is what ends up at the canonical path. *)
Lemma C6_counterexample :
  ext_export export_elsewhere (Yolo "models/yolov8s.pt" "cuda:0")
    "onnx" true 14%Z false fs_stale
  = inr [("models", Dir [("yolov8s.pt", File "weights of yolov8s")]);
         ("yolov8n.onnx", File "graph of n");
         ("yolov8s.onnx", File "graph of s")]
  /\ export_to_onnx export_elsewhere
       ["models"; "yolov8s.pt"] ["models"; "yolov8s.onnx"] (start fs_stale)
     = (Returns tt,
        World
          [("models", Dir [("yolov8s.pt", File "weights of yolov8s");
                           ("yolov8s.onnx", File "graph of n")]);
           ("yolov8s.onnx", File "graph of s")]
          ["Exportando el modelo models/yolov8s.pt a ONNX...";
           "Modelo exportado a ONNX y guardado en models/yolov8s.onnx"]
          [(Call "export_to_onnx" ["models/yolov8s.pt"; "models/yolov8s.onnx"],
            fs_stale);
           (YOLO_new "models/yolov8s.pt", fs_stale);
           (Model_export (Yolo "models/yolov8s.pt" "cuda:0")
              "onnx" true 14%Z false, fs_stale)]).
Proof. split; reflexivity. Qed.

(** C6, amended (literal default output path): whatever serialized-model
    path and canonical path it is given, [export_to_onnx] looks for the
    exporter's output at the fixed path [yolov8n.onnx] of the working
    directory. Once the export has returned: if nothing exists at that
    path, the function prints the failure notice and ends in
    [sys.exit(1)], leaving the filesystem as the export left it; if
    something exists there, that is what is renamed to the canonical
    path, and the function returns exactly when the rename succeeds. *)
Theorem C6_output_taken_from_literal_path
    (E : externals) (pt onnx : Path) (w : world)
    (m : yolo) (f1 f2 : filesystem) :
  ext_YOLO E (str pt) (fs w) = inr (m, f1) ->
  ext_export E m "onnx" true 14%Z false f1 = inr f2 ->
  (path_exists ["yolov8n.onnx"] f2 = false ->
   fst (export_to_onnx E pt onnx w) = Exits 1
   /\ exit_status (fst (export_to_onnx E pt onnx w)) <> 0%Z
   /\ fs (snd (export_to_onnx E pt onnx w)) = f2
   /\ last (printed (snd (export_to_onnx E pt onnx w))) ""
      = "Exportación a ONNX falló: archivo .onnx no encontrado.")
  /\ (path_exists ["yolov8n.onnx"] f2 = true ->
      match rename ["yolov8n.onnx"] onnx f2 with
      | inr f3 =>
          fst (export_to_onnx E pt onnx w) = Returns tt
          /\ fs (snd (export_to_onnx E pt onnx w)) = f3
      | inl _ =>
          fst (export_to_onnx E pt onnx w) = Exits 1
          /\ fs (snd (export_to_onnx E pt onnx w)) = f2
      end).
Proof.
  intros Hload Hexp.
  pose proof (export_to_onnx_summary E pt onnx w) as H. cbn zeta in H.
  rewrite Hload, Hexp in H. destruct H as (_ & H).
  split; intros Hex; rewrite Hex in H.
  - destruct H as (-> & -> & ->). repeat split. discriminate.
  - exact H.
Qed.

Lemma C6_witness :
  fst (export_to_onnx export_elsewhere
         ["models"; "yolov8s.pt"] ["models"; "yolov8s.onnx"]
         (start fs_other_model)) = Exits 1
  /\ exit_status (fst (export_to_onnx export_elsewhere
         ["models"; "yolov8s.pt"] ["models"; "yolov8s.onnx"]
         (start fs_other_model))) <> 0%Z
  /\ fs (snd (export_to_onnx export_elsewhere
         ["models"; "yolov8s.pt"] ["models"; "yolov8s.onnx"]
         (start fs_other_model)))
     = [("models", Dir [("yolov8s.pt", File "weights of yolov8s")]);
        ("yolov8s.onnx", File "graph of s")]
  /\ last (printed (snd (export_to_onnx export_elsewhere
         ["models"; "yolov8s.pt"] ["models"; "yolov8s.onnx"]
         (start fs_other_model)))) ""
     = "Exportación a ONNX falló: archivo .onnx no encontrado.".
Proof.
  apply (proj1 (C6_output_taken_from_literal_path export_elsewhere
           ["models"; "yolov8s.pt"] ["models"; "yolov8s.onnx"]
           (start fs_other_model)
           (Yolo "models/yolov8s.pt" "cuda:0") fs_other_model
           [("models", Dir [("yolov8s.pt", File "weights of yolov8s")]);
            ("yolov8s.onnx", File "graph of s")]
           eq_refl eq_refl)).
  reflexivity.
Defined.

(** C9 (fixed converter configuration): whatever paths it is given and
    whatever the outside does, every export call [export_to_onnx] makes
    has [format="onnx"], [simplify=True], [opset=14] and [verbose=False];
    and it makes that call whenever the model loads. *)
Theorem C9_export_configuration_fixed
    (E : externals) (pt onnx : Path) (w : world) :
  (forall m format simplify opset verbose,
      In (Model_export m format simplify opset verbose)
         (calls_of (export_to_onnx E pt onnx) w) ->
      format = "onnx" /\ simplify = true /\ opset = 14%Z /\ verbose = false)
  /\ (forall m f1,
      ext_YOLO E (str pt) (fs w) = inr (m, f1) ->
      In (Model_export m "onnx" true 14%Z false)
         (calls_of (export_to_onnx E pt onnx) w)).
Proof.
  pose proof (export_to_onnx_summary E pt onnx w) as H. cbn zeta in H.
  unfold calls_of. split.
  - intros m format simplify opset verbose Hin.
    destruct (ext_YOLO E (str pt) (fs w)) as [e|[m' f1]].
    + destruct H as (_ & _ & Hs). rewrite Hs in Hin. cbn in Hin.
      destruct Hin as [Hin|[Hin|[]]]; discriminate.
    + destruct H as (Hs & _). rewrite Hs in Hin. cbn in Hin.
      destruct Hin as [Hin|[Hin|[Hin|[]]]]; try discriminate.
      injection Hin as _ <- <- <- <-. auto.
  - intros m f1 Hload. rewrite Hload in H. destruct H as (Hs & _).
    rewrite Hs. cbn. auto.
Qed.

Lemma C9_witness :
  ("onnx" = "onnx" /\ true = true /\ 14%Z = 14%Z /\ false = false)
  /\ In (Model_export (Yolo "models/yolov8n.pt" "cuda:0") "onnx" true 14%Z false)
        (calls_of (export_to_onnx all_fine
           ["models"; "yolov8n.pt"] ["models"; "yolov8n.onnx"])
           (start fs_downloaded)).
Proof.
  split.
  - apply (proj1 (C9_export_configuration_fixed all_fine
             ["models"; "yolov8n.pt"] ["models"; "yolov8n.onnx"]
             (start fs_downloaded))
             (Yolo "models/yolov8n.pt" "cuda:0") "onnx" true 14%Z false).
    vm_compute. auto.
  - apply (proj2 (C9_export_configuration_fixed all_fine
             ["models"; "yolov8n.pt"] ["models"; "yolov8n.onnx"]
             (start fs_downloaded))
             (Yolo "models/yolov8n.pt" "cuda:0") fs_downloaded).
    reflexivity.
Defined.

(** ** The acquirer *)

Section Acquirer.

Variable E : externals.
Variable name : string.
Variable save_path : Path.

Let entered := Call "download_model" [name; str save_path].
Let pt_path : Path := save_path // (name ++ ".pt").

(** What one call of [download_model] does, by what the outside does. *)
Lemma download_model_summary w :
  let r := download_model E name save_path w in
  match ext_YOLO E name (fs w) with
  | inl _ =>
      fst r = Exits 1 /\ fs (snd r) = fs w
      /\ steps_of (download_model E name save_path) w
         = [(entered, fs w); (YOLO_new name, fs w)]
  | inr (m, f1) =>
      match ext_to E m "cpu" with
      | inl _ =>
          fst r = Exits 1 /\ fs (snd r) = f1
          /\ steps_of (download_model E name save_path) w
             = [(entered, fs w); (YOLO_new name, fs w); (Model_to "cpu", f1)]
      | inr m' =>
          steps_of (download_model E name save_path) w
          = [(entered, fs w); (YOLO_new name, fs w); (Model_to "cpu", f1);
             (Model_save m' pt_path, f1)]
          /\ match ext_save E m' pt_path f1 with
             | inl _ => fst r = Exits 1 /\ fs (snd r) = f1
             | inr f2 => fst r = Returns pt_path /\ fs (snd r) = f2
             end
      end
  end.
Proof.
  subst entered pt_path. cbn zeta.
  assert (Hsteps : forall new,
             trace (snd (download_model E name save_path w))
             = (trace w ++ new)%list ->
             steps_of (download_model E name save_path) w = new)
    by apply steps_of_eq.
  revert Hsteps. unfold_run. cbn. intros Hsteps.
  destruct (ext_YOLO E name (fs w)) as [e|[m f1]]; cbn in *.
  { repeat split. apply Hsteps. now rewrite <- !app_assoc. }
  destruct (ext_to E m "cpu") as [e|m']; cbn in *.
  { repeat split. apply Hsteps. now rewrite <- !app_assoc. }
  destruct (ext_save E m' (save_path // (name ++ ".pt")) f1) as [e|f2];
    cbn in *; (repeat split; apply Hsteps; now rewrite <- !app_assoc).
Qed.

End Acquirer.

(** C10 (CPU placement before persistence): whenever [download_model]
    returns, the calls it has made are, in this order, [YOLO(name)],
    [model.to('cpu')] and [model.save(path)]; the object saved is the
    model as [to('cpu')] left it, and the path saved to is the one
    returned. *)
Theorem C10_moved_to_cpu_before_save
    (E : externals) (name : string) (save_path : Path) (w : world) (p : Path) :
  fst (download_model E name save_path w) = Returns p ->
  exists m f1 m',
    ext_YOLO E name (fs w) = inr (m, f1)
    /\ ext_to E m "cpu" = inr m'
    /\ calls_of (download_model E name save_path) w
       = [Call "download_model" [name; str save_path];
          YOLO_new name; Model_to "cpu"; Model_save m' p].
Proof.
  intros Hret.
  pose proof (download_model_summary E name save_path w) as H. cbn zeta in H.
  destruct (ext_YOLO E name (fs w)) as [e|[m f1]] eqn:Hload.
  { destruct H as (Ho & _). congruence. }
  destruct (ext_to E m "cpu") as [e|m'] eqn:Hto.
  { destruct H as (Ho & _). congruence. }
  destruct H as (Hs & H).
  destruct (ext_save E m' (save_path // (name ++ ".pt")) f1) as [e|f2].
  { destruct H as (Ho & _). congruence. }
  destruct H as (Ho & _).
  assert (p = save_path // (name ++ ".pt")) as -> by congruence.
  exists m, f1, m'. unfold calls_of. rewrite Hs. repeat split. exact Hto.
Qed.

Lemma C10_witness :
  exists m f1 m',
    ext_YOLO all_fine "yolov8n" (fs (start fs_fresh)) = inr (m, f1)
    /\ ext_to all_fine m "cpu" = inr m'
    /\ calls_of (download_model all_fine "yolov8n" ["models"]) (start fs_fresh)
       = [Call "download_model" ["yolov8n"; str ["models"]];
          YOLO_new "yolov8n"; Model_to "cpu";
          Model_save m' ["models"; "yolov8n.pt"]].
Proof.
  apply (C10_moved_to_cpu_before_save all_fine "yolov8n" ["models"]
           (start fs_fresh) ["models"; "yolov8n.pt"]).
  reflexivity.
Defined.

(** ** The controller *)

#[local] Arguments mkdir_parents_exist_ok : simpl never.
#[local] Arguments path_exists : simpl never.
#[local] Arguments rename : simpl never.
#[local] Arguments Path_of : simpl never.
#[local] Arguments truediv : simpl never.
#[local] Arguments str : simpl never.

Lemma skipn_length_app {A} (l new : list A) :
  skipn (length l) (l ++ new) = new.
Proof. now rewrite skipn_app, skipn_all, Nat.sub_diag. Qed.

(** Membership in a list that computes. *)
Ltac in_computed_list :=
  vm_compute; repeat (first [left; reflexivity | right]).

(** One case split on what the outside answers at the next call. *)
Ltac case_split :=
  match goal with
  | |- context [let (_, _) := ?p in _] => is_var p; destruct p
  | |- context [if negb ?b then _ else _] => destruct b eqn:?
  | |- context [match ?s with inl _ => _ | inr _ => _ end] =>
      destruct s as [?|?] eqn:?
  | |- context [if ?b then _ else _] => destruct b eqn:?
  end.

(** Every step of every run of [main] is justified: by cases on the
    answers of the outside along the run. *)
Lemma main_steps_justified E w x :
  In x (steps_of (main E) w) -> step_justified E x.
Proof.
  unfold steps_of. unfold main. unfold_run. cbn.
  repeat (case_split; cbn).
  all: rewrite <- ?app_assoc; cbn; rewrite ?skipn_length_app.
  all: try (rewrite <- (app_nil_r (trace w)) at 2; rewrite skipn_length_app).
  all: intros Hin; cbn in Hin.
  all: repeat match goal with
         | H : _ \/ _ |- _ => destruct H as [H|H]
         | H : False |- _ => destruct H
         end.
  all: subst x; unfold step_justified; cbn [fst snd]; auto.
  all: try (left; repeat split; assumption).
  all: try (right; left; repeat split; try assumption; intros Hsave;
            (assumption || (eapply Hsave; eassumption))).
  all: try (right; right; repeat split; try assumption;
            (assumption || (eapply rename_populates; eassumption))).
Qed.

Lemma in_calls_of {A} (m : M A) w ev :
  In ev (calls_of m w) -> exists f, In (ev, f) (steps_of m w).
Proof.
  unfold calls_of. intros H. apply in_map_iff in H.
  destruct H as ([ev' f] & Hev & Hin). cbn in Hev. subst ev'. eauto.
Qed.

(** The provider of [all_fine] saves where it is told. *)
Lemma all_fine_save_creates : save_creates all_fine.
Proof.
  intros m p f f' H. cbn in H. unfold write_file in H.
  match type of H with
  | match ?put with Some _ => _ | None => _ end = _ =>
      destruct put as [f2|] eqn:Hput; [|discriminate]
  end.
  injection H as <-. unfold path_exists.
  now rewrite (put_entries_lookup _ _ _ _ Hput).
Qed.

(** C1 (idempotent skip): whenever the three artifact paths exist when
    [main] starts, the run makes no call at all (no stage function is
    entered, nothing is downloaded, exported or run as a subprocess),
    leaves the filesystem as it was, and returns, so the exit status
    is 0. *)
Theorem C1_all_present_runs_no_stage
    (E : externals) (w : world) :
  path_exists pt_model_path (fs w) = true ->
  path_exists onnx_model_path (fs w) = true ->
  path_exists engine_model_path (fs w) = true ->
  fst (main E w) = Returns tt
  /\ exit_status (fst (main E w)) = 0%Z
  /\ calls_of (main E) w = []
  /\ fs (snd (main E w)) = fs w.
Proof.
  intros Hpt Honnx Hengine.
  destruct (exists_below_dir "models" "yolov8n.pt" (fs w) Hpt) as (sub & Hdir).
  pose proof (mkdir_existing _ _ _ Hdir) as Hmk.
  assert (Hrun : main E w
                 = (Returns tt,
                    World (fs w)
                      (printed w ++
                       ["El modelo PyTorch ya existe en models/yolov8n.pt. Saltando descarga.";
                        "El modelo ONNX ya existe en models/yolov8n.onnx. Saltando exportación.";
                        "El modelo TensorRT .engine ya existe en models/yolov8n.engine. Saltando conversión."])
                      (trace w))).
  { unfold main, bind, fs_op, exists_, print.
    change save_directory with ["models"]. rewrite Hmk. cbn.
    rewrite Hpt. cbn. rewrite Honnx. cbn. rewrite Hengine. cbn.
    now rewrite <- !app_assoc. }
  unfold calls_of, steps_of. rewrite Hrun. cbn.
  repeat split. now rewrite skipn_all.
Qed.

Lemma C1_witness :
  fst (main all_fine (start fs_complete)) = Returns tt
  /\ exit_status (fst (main all_fine (start fs_complete))) = 0%Z
  /\ calls_of (main all_fine) (start fs_complete) = []
  /\ fs (snd (main all_fine (start fs_complete))) = fs (start fs_complete).
Proof.
  apply (C1_all_present_runs_no_stage all_fine (start fs_complete));
    reflexivity.
Defined.

(** C2, as stated, fails on "non-empty": only presence is looked at. With
    a serialized model of zero bytes and no interchange artifact, [main]
    enters the converter; with an interchange artifact of zero bytes and
    no engine, it enters the compiler invoker. *)
Lemma C2_counterexample :
  (In (Call "export_to_onnx" ["models/yolov8n.pt"; "models/yolov8n.onnx"],
       fs_empty_pt)
      (steps_of (main all_fine) (start fs_empty_pt))
   /\ lookup pt_model_path fs_empty_pt = Some (File "")
   /\ nonempty_file pt_model_path fs_empty_pt = false)
  /\ (In (Call "convert_onnx_to_engine"
            ["models/yolov8n.onnx"; "models/yolov8n.engine"; "fp16"],
          fs_empty_onnx)
         (steps_of (main all_fine) (start fs_empty_onnx))
      /\ lookup onnx_model_path fs_empty_onnx = Some (File "")
      /\ nonempty_file onnx_model_path fs_empty_onnx = false).
Proof.
  split; (split; [in_computed_list | split; reflexivity]).
Qed.

(** C2, amended (dependency ordering, by presence): in every run of
    [main], the compiler invoker is entered only when the interchange
    artifact path exists at that moment, and, provided the provider's
    [save] leaves a file at the path it is given whenever it returns,
    the converter is entered only when the serialized model path exists
    at that moment. Whether the file has any content is not looked at. *)
Theorem C2_stage_entered_only_with_input_present
    (E : externals) (w : world) (args : list string) (f' : filesystem) :
  (save_creates E ->
   In (Call "export_to_onnx" args, f') (steps_of (main E) w) ->
   path_exists pt_model_path f' = true)
  /\ (In (Call "convert_onnx_to_engine" args, f') (steps_of (main E) w) ->
      path_exists onnx_model_path f' = true).
Proof.
  split.
  - intros Hsave Hin. apply main_steps_justified in Hin.
    unfold step_justified in Hin. cbn [fst snd] in Hin.
    destruct Hin as [(Hfn & _)|[(_ & _ & _ & H)|(Hfn & _)]];
      [discriminate | now apply H | discriminate].
  - intros Hin. apply main_steps_justified in Hin.
    unfold step_justified in Hin. cbn [fst snd] in Hin.
    destruct Hin as [(Hfn & _)|[(Hfn & _)|(_ & _ & _ & H)]];
      [discriminate | discriminate | exact H].
Qed.

Lemma C2_witness :
  path_exists pt_model_path
    [("models", Dir [("yolov8n.pt", File "weights of yolov8n")])] = true
  /\ path_exists onnx_model_path
       [("models", Dir [("yolov8n.pt", File "weights of yolov8n");
                        ("yolov8n.onnx", File "graph")])] = true.
Proof.
  split.
  - apply (proj1 (C2_stage_entered_only_with_input_present all_fine
             (start fs_fresh)
             ["models/yolov8n.pt"; "models/yolov8n.onnx"]
             [("models", Dir [("yolov8n.pt", File "weights of yolov8n")])])).
    + exact all_fine_save_creates.
    + in_computed_list.
  - apply (proj2 (C2_stage_entered_only_with_input_present all_fine
             (start fs_fresh)
             ["models/yolov8n.onnx"; "models/yolov8n.engine"; "fp16"]
             [("models", Dir [("yolov8n.pt", File "weights of yolov8n");
                              ("yolov8n.onnx", File "graph")])])).
    in_computed_list.
Defined.

(** *** Paths built from a name and a directory *)

Lemma append_assoc (a b c : string) : (a ++ b) ++ c = a ++ (b ++ c).
Proof. induction a as [|x a IH]; cbn; [reflexivity | now rewrite IH]. Qed.

Lemma append_empty_r (a : string) : a ++ "" = a.
Proof. induction a as [|x a IH]; cbn; [reflexivity | now rewrite IH]. Qed.

Lemma has_slash_append (a b : string) :
  has_slash (a ++ b) = has_slash a || has_slash b.
Proof.
  induction a as [|x a IH]; cbn; [reflexivity|].
  now rewrite IH, orb_assoc.
Qed.

(** A string with no slash in it is one component. *)
Lemma split_at_no_slash (s cur : string) :
  has_slash s = false -> split_at "/" s cur = [cur ++ s].
Proof.
  revert cur. induction s as [|a s IH]; intros cur H; cbn in *.
  - now rewrite append_empty_r.
  - apply orb_false_iff in H. destruct H as (Ha & Hs).
    rewrite Ha, (IH _ Hs), append_assoc. reflexivity.
Qed.

(** The components of a split have no slash in them. *)
Lemma split_at_components (s cur : string) :
  has_slash cur = false ->
  Forall (fun c => has_slash c = false) (split_at "/" s cur).
Proof.
  revert cur. induction s as [|a s IH]; intros cur H; cbn.
  - auto.
  - destruct (Ascii.eqb a "/") eqn:Ha.
    + constructor; [exact H | now apply IH].
    + apply IH. rewrite has_slash_append, H. cbn. now rewrite Ha.
Qed.

Lemma is_root_has_slash (c : string) : is_root c = true -> has_slash c = true.
Proof.
  unfold is_root. intros H. apply orb_true_iff in H.
  destruct H as [H|H]; apply String.eqb_eq in H; subst c; reflexivity.
Qed.

Lemma root_of_relative (a : ascii) (s : string) :
  Ascii.eqb a "/" = false -> root_of (String a s) = [].
Proof.
  destruct a as [[] [] [] [] [] [] [] []]; cbn; intros H;
    try reflexivity; discriminate.
Qed.

(** A string that does not start with a slash is a relative path. *)
Lemma Path_of_relative (s : string) :
  prefix "/" s = false -> is_absolute (Path_of s) = false.
Proof.
  intros Hs. unfold Path_of.
  assert (Hroot : root_of s = []).
  { destruct s as [|a s]; [reflexivity|].
    apply root_of_relative. cbn in Hs.
    destruct (ascii_dec "/" a) as [<-|Hne].
    - now destruct s.
    - now apply Ascii.eqb_neq. }
  rewrite Hroot. cbn [app].
  pose proof (split_at_components s "" eq_refl) as Hall.
  induction Hall as [|c l Hc Hl IH]; cbn; [reflexivity|].
  destruct (keep_component c); [|exact IH].
  cbn. destruct (is_root c) eqn:Hr; [|reflexivity].
  apply is_root_has_slash in Hr. congruence.
Qed.

(** A name with no slash in it, followed by an extension that starts
    with a dot, is a path of one component. *)
Lemma Path_of_file_name (name ext : string) :
  has_slash name = false -> has_slash ext = false -> ext <> "" ->
  Path_of (name ++ "." ++ ext) = [name ++ "." ++ ext].
Proof.
  intros Hn He Hext.
  set (s := name ++ "." ++ ext).
  assert (Hs : has_slash s = false).
  { subst s. rewrite has_slash_append, Hn. cbn. exact He. }
  assert (Hroot : root_of s = []).
  { subst s. destruct name as [|a name]; cbn in *; [reflexivity|].
    apply orb_false_iff in Hn. destruct Hn as (Ha & _).
    now apply (root_of_relative a). }
  assert (Hkeep : keep_component s = true).
  { subst s. unfold keep_component.
    destruct name as [|a [|b name]]; cbn.
    - destruct ext; [congruence | reflexivity].
    - destruct (Ascii.eqb a "."); reflexivity.
    - destruct (Ascii.eqb a "."); reflexivity. }
  unfold Path_of. rewrite Hroot, (split_at_no_slash s "" Hs).
  change ("" ++ s) with s. cbn [app filter]. now rewrite Hkeep.
Qed.

Lemma join_snoc (sep : string) (l : list string) (x : string) :
  l <> [] -> join sep (l ++ [x])%list = join sep l ++ sep ++ x.
Proof.
  induction l as [|a l IH]; [congruence|]. intros _.
  destruct l as [|b l]; [reflexivity|].
  change (join sep ((a :: b :: l) ++ [x])%list)
    with (a ++ sep ++ join sep ((b :: l) ++ [x])%list).
  rewrite IH by discriminate.
  change (join sep (a :: b :: l)) with (a ++ sep ++ join sep (b :: l)).
  now rewrite !append_assoc.
Qed.

(** The text of an entry of a directory other than the working directory
    or a root: the directory, a slash, the entry. *)
Lemma str_entry (dir : Path) (x : string) :
  dot_or_root dir = false -> str (dir ++ [x])%list = str dir ++ "/" ++ x.
Proof.
  destruct dir as [|c rest]; [discriminate|]. intros H.
  unfold str. cbn [app]. destruct (is_root c) eqn:Hr.
  - destruct rest as [|d rest]; [cbn in H; congruence|].
    rewrite join_snoc by discriminate. now rewrite !append_assoc.
  - change (c :: (rest ++ [x])%list) with ((c :: rest) ++ [x])%list.
    now rewrite join_snoc by discriminate.
Qed.

(** *** Runs of the controller for any name and directory *)

Lemma main_is_main_with E : main E = main_with E model_name save_directory.
Proof. reflexivity. Qed.

(** All the cases of a run of [main_with], by what the outside answers. *)
Ltac main_with_cases :=
  unfold main_with; unfold_run; cbn; repeat (case_split; cbn).

Ltac listed_steps :=
  rewrite <- ?app_assoc; cbn; rewrite ?skipn_length_app;
  try (rewrite <- (app_nil_r (trace _)) at 2; rewrite skipn_length_app).

Lemma main_with_steps_use_paths E name dir w x :
  In x (steps_of (main_with E name dir) w) -> step_uses_paths name dir x.
Proof.
  unfold steps_of. main_with_cases.
  all: listed_steps; intros Hin; cbn in Hin.
  all: repeat match goal with
         | H : _ \/ _ |- _ => destruct H as [H|H]
         | H : False |- _ => destruct H
         end.
  all: subst x; unfold step_uses_paths; cbn [fst snd In]; auto.
Qed.

(** The stage a run of [main_with] enters first is the first one whose
    output is missing. *)
Lemma main_with_first_step E name dir w f0 :
  mkdir_parents_exist_ok dir (fs w) = inr f0 ->
  hd_error (steps_of (main_with E name dir) w)
  = if negb (path_exists (dir // (name ++ ".pt")) f0) then
      Some (Call "download_model" [name; str dir], f0)
    else if negb (path_exists (dir // (name ++ ".onnx")) f0) then
      Some (Call "export_to_onnx"
              [str (dir // (name ++ ".pt")); str (dir // (name ++ ".onnx"))], f0)
    else if negb (path_exists (dir // (name ++ ".engine")) f0) then
      Some (Call "convert_onnx_to_engine"
              [str (dir // (name ++ ".onnx")); str (dir // (name ++ ".engine"));
               "fp16"], f0)
    else None.
Proof.
  unfold steps_of. main_with_cases.
  all: listed_steps; cbn; intros Hmk.
  all: try discriminate.
  all: injection Hmk as <-.
  all: first [reflexivity | congruence].
Qed.

Lemma prefix_slash_cons (a : ascii) (rest : string) :
  prefix "/" (String a rest) = if ascii_dec "/" a then true else false.
Proof.
  change (prefix "/" (String a rest))
    with (if ascii_dec "/" a then prefix "" rest else false).
  destruct (ascii_dec "/" a); [now destruct rest | reflexivity].
Qed.

Lemma prefix_slash_append (name ext : string) :
  prefix "/" name = false -> prefix "/" (name ++ "." ++ ext) = false.
Proof.
  destruct name as [|a name]; [reflexivity|].
  change (String a name ++ "." ++ ext) with (String a (name ++ "." ++ ext)).
  now rewrite !prefix_slash_cons.
Qed.

(** Joining a relative name to a directory appends its components. *)
Lemma truediv_relative (dir : Path) (name ext : string) :
  prefix "/" name = false ->
  dir // (name ++ "." ++ ext) = (List.app dir (Path_of (name ++ "." ++ ext))).
Proof.
  intros H. unfold truediv.
  now rewrite (Path_of_relative _ (prefix_slash_append name ext H)).
Qed.

(** Joining a name with no slash in it to a directory gives the entry of
    that name in the directory. *)
Lemma truediv_file_name (dir : Path) (name ext : string) :
  has_slash name = false -> has_slash ext = false -> ext <> "" ->
  dir // (name ++ "." ++ ext) = (List.app dir [name ++ "." ++ ext]).
Proof.
  intros Hn He Hext. unfold truediv.
  rewrite (Path_of_file_name name ext Hn He Hext). cbn [is_absolute].
  destruct (is_root (name ++ "." ++ ext)) eqn:Hr; [|reflexivity].
  apply is_root_has_slash in Hr.
  rewrite has_slash_append, Hn in Hr. cbn in Hr. congruence.
Qed.




(** The names the end-to-end scenario expects. *)
Example artifact_paths :
  (str pt_model_path, str onnx_model_path, str engine_model_path)
  = ("models/yolov8n.pt", "models/yolov8n.onnx", "models/yolov8n.engine").
Proof. reflexivity. Qed.

(** A first run in an empty output directory, then a second one. *)
Example first_run :
  fst (main all_fine (start fs_fresh)) = Returns tt
  /\ fs (snd (main all_fine (start fs_fresh))) = fs_complete.
Proof. split; reflexivity. Qed.

Example second_run :
  calls_of (main all_fine) (snd (main all_fine (start fs_fresh))) = []
  /\ fst (main all_fine (snd (main all_fine (start fs_fresh)))) = Returns tt.
Proof. split; reflexivity. Qed.

(** ** Further properties of the stage functions *)

(** How each stage function can end. *)
Lemma download_model_ends E name save_path w :
  fst (download_model E name save_path w) = Exits 1
  \/ fst (download_model E name save_path w)
     = Returns (save_path // (name ++ ".pt")).
Proof.
  pose proof (download_model_summary E name save_path w) as H. cbn zeta in H.
  destruct (ext_YOLO E name (fs w)) as [e|[m f1]]; [tauto|].
  destruct (ext_to E m "cpu") as [e|m']; [tauto|].
  destruct H as (_ & H).
  destruct (ext_save E m' (save_path // (name ++ ".pt")) f1); tauto.
Qed.

Lemma export_to_onnx_ends E pt onnx w :
  fst (export_to_onnx E pt onnx w) = Exits 1
  \/ fst (export_to_onnx E pt onnx w) = Returns tt.
Proof.
  pose proof (export_to_onnx_summary E pt onnx w) as H. cbn zeta in H.
  destruct (ext_YOLO E (str pt) (fs w)) as [e|[m f1]]; [tauto|].
  destruct H as (_ & H).
  destruct (ext_export E m "onnx" true 14%Z false f1) as [e|f2]; [tauto|].
  destruct (path_exists ["yolov8n.onnx"] f2); [|tauto].
  destruct (rename ["yolov8n.onnx"] onnx f2); tauto.
Qed.

Lemma convert_onnx_to_engine_ends E onnx engine precision w :
  fst (convert_onnx_to_engine E onnx engine precision w) = Exits 1
  \/ fst (convert_onnx_to_engine E onnx engine precision w) = Returns tt.
Proof.
  pose proof (convert_onnx_to_engine_summary E onnx engine precision w) as H.
  cbn zeta in H.
  destruct (ext_run E ["trtexec"; "--version"] (fs w)) as [e|[cp f1]]; [tauto|].
  destruct (returncode cp =? 0)%Z; [|tauto].
  destruct H as (_ & H).
  match type of H with
  | match ?run with inl _ => _ | inr _ => _ end =>
      destruct run as [e|[cp2 f2]]; [tauto|]
  end.
  destruct H as (_ & H). destruct (returncode cp2 =? 0)%Z; tauto.
Qed.

(** Every [sys.exit] of the stage functions is [sys.exit(1)]: whenever
    one of them ends through [sys.exit], the status is 1, whatever went
    wrong. *)
Theorem stage_exit_status_is_one
    (E : externals) (w : world) (code : Z) :
  (forall name save_path,
      fst (download_model E name save_path w) = Exits code -> code = 1%Z)
  /\ (forall pt onnx,
      fst (export_to_onnx E pt onnx w) = Exits code -> code = 1%Z)
  /\ (forall onnx engine precision,
      fst (convert_onnx_to_engine E onnx engine precision w) = Exits code ->
      code = 1%Z).
Proof.
  split; [|split].
  - intros name save_path Hexit.
    destruct (download_model_ends E name save_path w) as [H|H];
      rewrite H in Hexit; congruence.
  - intros pt onnx Hexit.
    destruct (export_to_onnx_ends E pt onnx w) as [H|H];
      rewrite H in Hexit; congruence.
  - intros onnx engine precision Hexit.
    destruct (convert_onnx_to_engine_ends E onnx engine precision w) as [H|H];
      rewrite H in Hexit; congruence.
Qed.

Lemma stage_exit_status_is_one_witness :
  1%Z = 1%Z /\ 1%Z = 1%Z /\ 1%Z = 1%Z.
Proof.
  split; [|split].
  - apply (proj1 (stage_exit_status_is_one no_network (start fs_fresh) 1)
             "yolov8n" ["models"]).
    reflexivity.
  - apply (proj1 (proj2 (stage_exit_status_is_one export_raises
             (start fs_downloaded) 1))
             ["models"; "yolov8n.pt"] ["models"; "yolov8n.onnx"]).
    reflexivity.
  - apply (proj2 (proj2 (stage_exit_status_is_one probe_fails
             (start fs_exported) 1))
             ["models"; "yolov8n.onnx"] ["models"; "yolov8n.engine"] "fp16").
    reflexivity.
Defined.

(** Whichever of [YOLO(name)], [model.to('cpu')] and [model.save(path)]
    raises, [download_model] prints ["Error al descargar el modelo: "]
    followed by the text of the exception and ends in [sys.exit(1)]. *)
Theorem download_failure_reported
    (E : externals) (name : string) (save_path : Path) (w : world) (e : exn) :
  ext_YOLO E name (fs w) = inl e
  \/ (exists m f1,
        ext_YOLO E name (fs w) = inr (m, f1) /\ ext_to E m "cpu" = inl e)
  \/ (exists m f1 m',
        ext_YOLO E name (fs w) = inr (m, f1) /\ ext_to E m "cpu" = inr m'
        /\ ext_save E m' (save_path // (name ++ ".pt")) f1 = inl e) ->
  fst (download_model E name save_path w) = Exits 1
  /\ last (printed (snd (download_model E name save_path w))) ""
     = "Error al descargar el modelo: " ++ exn_str e.
Proof.
  intros [H|[(m & f1 & H1 & H2)|(m & f1 & m' & H1 & H2 & H3)]];
    unfold_run; cbn.
  - rewrite H. cbn. split; [reflexivity | now rewrite last_last].
  - rewrite H1. cbn. rewrite H2. cbn.
    split; [reflexivity | now rewrite last_last].
  - rewrite H1. cbn. rewrite H2. cbn. rewrite H3. cbn.
    split; [reflexivity | now rewrite last_last].
Qed.

Lemma download_failure_reported_witness :
  fst (download_model no_network "yolov8n" ["models"] (start fs_fresh)) = Exits 1
  /\ last (printed (snd (download_model no_network "yolov8n" ["models"]
                          (start fs_fresh)))) ""
     = "Error al descargar el modelo: "
       ++ exn_str (Exn "ConnectionError" "Download failure").
Proof.
  apply (download_failure_reported no_network "yolov8n" ["models"]
           (start fs_fresh) (Exn "ConnectionError" "Download failure")).
  left. reflexivity.
Defined.

(** When [YOLO(name)] raises, [download_model] makes no further call to
    the provider: neither [to] nor [save] is called. *)
Theorem download_load_failure_calls_nothing_more
    (E : externals) (name : string) (save_path : Path) (w : world) (e : exn) :
  ext_YOLO E name (fs w) = inl e ->
  calls_of (download_model E name save_path) w
  = [Call "download_model" [name; str save_path]; YOLO_new name].
Proof.
  intros Hload.
  pose proof (download_model_summary E name save_path w) as H. cbn zeta in H.
  rewrite Hload in H. destruct H as (_ & _ & Hs).
  unfold calls_of. now rewrite Hs.
Qed.

Lemma download_load_failure_calls_nothing_more_witness :
  calls_of (download_model no_network "yolov8n" ["models"]) (start fs_fresh)
  = [Call "download_model" ["yolov8n"; str ["models"]]; YOLO_new "yolov8n"].
Proof.
  apply (download_load_failure_calls_nothing_more no_network "yolov8n"
           ["models"] (start fs_fresh)
           (Exn "ConnectionError" "Download failure")).
  reflexivity.
Defined.

(** Whichever of [YOLO(path)], [model.export(...)] and the rename of the
    exported file raises, [export_to_onnx] prints
    ["Error al exportar a ONNX: "] followed by the text of the exception
    and ends in [sys.exit(1)]. *)
Theorem export_failure_reported
    (E : externals) (pt onnx : Path) (w : world) (e : exn) :
  ext_YOLO E (str pt) (fs w) = inl e
  \/ (exists m f1,
        ext_YOLO E (str pt) (fs w) = inr (m, f1)
        /\ ext_export E m "onnx" true 14%Z false f1 = inl e)
  \/ (exists m f1 f2,
        ext_YOLO E (str pt) (fs w) = inr (m, f1)
        /\ ext_export E m "onnx" true 14%Z false f1 = inr f2
        /\ path_exists (Path_of "yolov8n.onnx") f2 = true
        /\ rename (Path_of "yolov8n.onnx") onnx f2 = inl e) ->
  fst (export_to_onnx E pt onnx w) = Exits 1
  /\ last (printed (snd (export_to_onnx E pt onnx w))) ""
     = "Error al exportar a ONNX: " ++ exn_str e.
Proof.
  intros [H|[(m & f1 & H1 & H2)|(m & f1 & f2 & H1 & H2 & H3 & H4)]];
    unfold_run; cbn.
  - rewrite H. cbn. split; [reflexivity | now rewrite last_last].
  - rewrite H1. cbn. rewrite H2. cbn.
    split; [reflexivity | now rewrite last_last].
  - rewrite H1. cbn. rewrite H2. cbn. rewrite H3. cbn. rewrite H4. cbn.
    split; [reflexivity | now rewrite last_last].
Qed.

Lemma export_failure_reported_witness :
  fst (export_to_onnx export_raises
         ["models"; "yolov8n.pt"] ["models"; "yolov8n.onnx"]
         (start fs_downloaded)) = Exits 1
  /\ last (printed (snd (export_to_onnx export_raises
         ["models"; "yolov8n.pt"] ["models"; "yolov8n.onnx"]
         (start fs_downloaded)))) ""
     = "Error al exportar a ONNX: "
       ++ exn_str (Exn "ImportError" "No module named 'onnx'").
Proof.
  apply (export_failure_reported export_raises
           ["models"; "yolov8n.pt"] ["models"; "yolov8n.onnx"]
           (start fs_downloaded) (Exn "ImportError" "No module named 'onnx'")).
  right. left.
  exists (Yolo "models/yolov8n.pt" "cuda:0"), fs_downloaded.
  split; reflexivity.
Defined.

(** Whenever [export_to_onnx] returns, what is at the path it was asked
    to fill is what the export call left at [yolov8n.onnx] in the working
    directory, unchanged. *)
Theorem export_installs_what_exporter_left
    (E : externals) (pt onnx : Path) (w : world)
    (m : yolo) (f1 f2 : filesystem) :
  ext_YOLO E (str pt) (fs w) = inr (m, f1) ->
  ext_export E m "onnx" true 14%Z false f1 = inr f2 ->
  fst (export_to_onnx E pt onnx w) = Returns tt ->
  lookup onnx (fs (snd (export_to_onnx E pt onnx w)))
  = lookup (Path_of "yolov8n.onnx") f2
  /\ lookup (Path_of "yolov8n.onnx") f2 <> None.
Proof.
  intros Hload Hexp Hret.
  pose proof (export_to_onnx_summary E pt onnx w) as H. cbn zeta in H.
  rewrite Hload, Hexp in H. destruct H as (_ & H).
  change (Path_of "yolov8n.onnx") with ["yolov8n.onnx"].
  unfold path_exists in H.
  destruct (lookup ["yolov8n.onnx"] f2) as [n|] eqn:Hsrc.
  - destruct (rename ["yolov8n.onnx"] onnx f2) as [e|f3] eqn:Hren.
    + destruct H as (Ho & _). congruence.
    + destruct H as (_ & ->). split; [|discriminate].
      rewrite <- Hsrc. eapply rename_moves; eassumption.
  - destruct H as (Ho & _). congruence.
Qed.

Lemma export_installs_what_exporter_left_witness :
  lookup ["models"; "yolov8n.onnx"]
    (fs (snd (export_to_onnx all_fine
                ["models"; "yolov8n.pt"] ["models"; "yolov8n.onnx"]
                (start fs_downloaded))))
  = lookup (Path_of "yolov8n.onnx")
      [("models", Dir [("yolov8n.pt", File "weights of yolov8n")]);
       ("yolov8n.onnx", File "graph")]
  /\ lookup (Path_of "yolov8n.onnx")
       [("models", Dir [("yolov8n.pt", File "weights of yolov8n")]);
        ("yolov8n.onnx", File "graph")] <> None.
Proof.
  apply (export_installs_what_exporter_left all_fine
           ["models"; "yolov8n.pt"] ["models"; "yolov8n.onnx"]
           (start fs_downloaded)
           (Yolo "models/yolov8n.pt" "cuda:0") fs_downloaded
           [("models", Dir [("yolov8n.pt", File "weights of yolov8n")]);
            ("yolov8n.onnx", File "graph")]);
    reflexivity.
Defined.

(** When [subprocess.run] itself raises, as it does when there is no
    [trtexec] to start, [convert_onnx_to_engine] prints
    ["Error al convertir a TensorRT: "] followed by the text of the
    exception and ends in [sys.exit(1)]; if it was the probe that raised,
    the compilation is never started. *)
Theorem convert_run_exception_reported
    (E : externals) (onnx engine : Path) (precision : string) (w : world)
    (e : exn) :
  (ext_run E ["trtexec"; "--version"] (fs w) = inl e ->
   fst (convert_onnx_to_engine E onnx engine precision w) = Exits 1
   /\ last (printed (snd (convert_onnx_to_engine E onnx engine precision w))) ""
      = "Error al convertir a TensorRT: " ++ exn_str e
   /\ calls_of (convert_onnx_to_engine E onnx engine precision) w
      = [Call "convert_onnx_to_engine" [str onnx; str engine; precision];
         Subprocess_run ["trtexec"; "--version"] true true])
  /\ (forall cp f1,
      ext_run E ["trtexec"; "--version"] (fs w) = inr (cp, f1) ->
      returncode cp = 0%Z ->
      ext_run E ["trtexec"; "--onnx=" ++ str onnx; "--saveEngine=" ++ str engine;
                 "--" ++ precision] f1 = inl e ->
      fst (convert_onnx_to_engine E onnx engine precision w) = Exits 1
      /\ last (printed (snd (convert_onnx_to_engine E onnx engine precision w))) ""
         = "Error al convertir a TensorRT: " ++ exn_str e).
Proof.
  split.
  - intros Hrun.
    pose proof (convert_onnx_to_engine_summary E onnx engine precision w) as H.
    cbn zeta in H. rewrite Hrun in H. destruct H as (Ho & _ & Hs).
    unfold calls_of. rewrite Ho, Hs. repeat split.
    unfold_run. cbn. rewrite Hrun. cbn. now rewrite last_last.
  - intros cp f1 Hrun Hrc Hrun2.
    unfold_run. cbn. rewrite Hrun. cbn. rewrite Hrc. cbn in *.
    rewrite Hrun2. cbn. split; [reflexivity | now rewrite last_last].
Qed.

Lemma convert_run_exception_reported_witness :
  fst (convert_onnx_to_engine trtexec_missing
         ["models"; "yolov8n.onnx"] ["models"; "yolov8n.engine"] "fp16"
         (start fs_exported)) = Exits 1
  /\ last (printed (snd (convert_onnx_to_engine trtexec_missing
         ["models"; "yolov8n.onnx"] ["models"; "yolov8n.engine"] "fp16"
         (start fs_exported)))) ""
     = "Error al convertir a TensorRT: "
       ++ exn_str (Exn "FileNotFoundError"
                     "[Errno 2] No such file or directory: 'trtexec'")
  /\ calls_of (convert_onnx_to_engine trtexec_missing
         ["models"; "yolov8n.onnx"] ["models"; "yolov8n.engine"] "fp16")
       (start fs_exported)
     = [Call "convert_onnx_to_engine"
          [str ["models"; "yolov8n.onnx"]; str ["models"; "yolov8n.engine"];
           "fp16"];
        Subprocess_run ["trtexec"; "--version"] true true].
Proof.
  apply (proj1 (convert_run_exception_reported trtexec_missing
           ["models"; "yolov8n.onnx"] ["models"; "yolov8n.engine"] "fp16"
           (start fs_exported)
           (Exn "FileNotFoundError"
              "[Errno 2] No such file or directory: 'trtexec'"))).
  reflexivity.
Defined.

(** [convert_onnx_to_engine] goes by the return code alone: when the
    probe and the compilation both end with status 0 it prints that the
    engine was saved and returns, leaving the filesystem as the compiler
    left it, without looking whether anything is at the engine path. *)
Theorem convert_success_by_return_code_alone
    (E : externals) (onnx engine : Path) (precision : string) (w : world)
    (cp : CompletedProcess) (f1 : filesystem)
    (cp2 : CompletedProcess) (f2 : filesystem) :
  ext_run E ["trtexec"; "--version"] (fs w) = inr (cp, f1) ->
  returncode cp = 0%Z ->
  ext_run E ["trtexec"; "--onnx=" ++ str onnx; "--saveEngine=" ++ str engine;
             "--" ++ precision] f1 = inr (cp2, f2) ->
  returncode cp2 = 0%Z ->
  fst (convert_onnx_to_engine E onnx engine precision w) = Returns tt
  /\ fs (snd (convert_onnx_to_engine E onnx engine precision w)) = f2
  /\ last (printed (snd (convert_onnx_to_engine E onnx engine precision w))) ""
     = "Conversión a TensorRT .engine completada y guardada en " ++ str engine.
Proof.
  intros Hrun Hrc Hrun2 Hrc2.
  unfold_run. cbn. rewrite Hrun. cbn. rewrite Hrc. cbn in *.
  rewrite Hrun2. cbn. rewrite Hrc2. cbn.
  repeat split. now rewrite last_last.
Qed.

Lemma convert_success_by_return_code_alone_witness :
  (fst (convert_onnx_to_engine silent_compiler
          ["models"; "yolov8n.onnx"] ["models"; "yolov8n.engine"] "fp16"
          (start fs_exported)) = Returns tt
   /\ fs (snd (convert_onnx_to_engine silent_compiler
          ["models"; "yolov8n.onnx"] ["models"; "yolov8n.engine"] "fp16"
          (start fs_exported))) = fs_exported
   /\ last (printed (snd (convert_onnx_to_engine silent_compiler
          ["models"; "yolov8n.onnx"] ["models"; "yolov8n.engine"] "fp16"
          (start fs_exported)))) ""
      = "Conversión a TensorRT .engine completada y guardada en "
        ++ str ["models"; "yolov8n.engine"])
  /\ path_exists ["models"; "yolov8n.engine"] fs_exported = false.
Proof.
  split; [|reflexivity].
  apply (convert_success_by_return_code_alone silent_compiler
           ["models"; "yolov8n.onnx"] ["models"; "yolov8n.engine"] "fp16"
           (start fs_exported)
           (Completed 0 "" "") fs_exported (Completed 0 "" "") fs_exported);
    reflexivity.
Defined.

(** ** Further properties of the controller *)

(** All the cases of a run of [main], by what the outside answers. *)
Ltac main_cases :=
  unfold main; unfold_run; cbn; repeat (case_split; cbn).

(** The steps of the run at hand, as an explicit list. *)
Ltac explicit_steps :=
  rewrite <- ?app_assoc; cbn; rewrite ?skipn_length_app;
  try (rewrite <- (app_nil_r (trace _)) at 2; rewrite skipn_length_app).

(** [main] has no [sys.exit] of its own: whenever a run of [main] ends
    through [sys.exit], the status is 1 and a stage function was entered
    in that run. *)
Theorem main_exit_status_is_one
    (E : externals) (w : world) (code : Z) :
  fst (main E w) = Exits code ->
  code = 1%Z
  /\ exists fn args, In (Call fn args) (calls_of (main E) w).
Proof.
  unfold calls_of, steps_of. main_cases.
  all: explicit_steps; cbn; intros Hexit; try discriminate.
  all: injection Hexit as <-; split; [reflexivity|].
  all: do 2 eexists; left; reflexivity.
Qed.

Lemma main_exit_status_is_one_witness :
  1%Z = 1%Z
  /\ exists fn args,
       In (Call fn args) (calls_of (main no_network) (start fs_fresh)).
Proof.
  apply (main_exit_status_is_one no_network (start fs_fresh) 1).
  reflexivity.
Defined.

(** When a regular file named [models] is where the output directory
    should be, [mkdir], which is outside any [try], raises
    [FileExistsError]: the run dies of it before anything is printed or
    called, with exit status 1. *)
Theorem main_dies_when_file_in_the_way
    (E : externals) (w : world) (d : string) :
  assoc "models" (fs w) = Some (File d) ->
  main E w
  = (Raises (Exn "FileExistsError" "[Errno 17] File exists: 'models'"), w)
  /\ exit_status (fst (main E w)) = 1%Z.
Proof.
  intros Hd.
  assert (Hrun : main E w
            = (Raises (Exn "FileExistsError" "[Errno 17] File exists: 'models'"), w)).
  { unfold main, bind, fs_op.
    change (mkdir_parents_exist_ok save_directory (fs w))
      with (mkdir_entries ["models"] ["models"] (fs w)).
    cbn. rewrite Hd. reflexivity. }
  rewrite Hrun. split; reflexivity.
Qed.

Lemma main_dies_when_file_in_the_way_witness :
  main all_fine (start fs_blocked)
  = (Raises (Exn "FileExistsError" "[Errno 17] File exists: 'models'"),
     start fs_blocked)
  /\ exit_status (fst (main all_fine (start fs_blocked))) = 1%Z.
Proof.
  apply (main_dies_when_file_in_the_way all_fine (start fs_blocked)
           "not a directory").
  reflexivity.
Defined.

(** Skip policy, stage by stage: in every run of [main], a stage is
    entered only when its own output path is missing at that moment. *)
Theorem stage_entered_only_when_output_missing
    (E : externals) (w : world) (args : list string) (f' : filesystem) :
  (In (Call "download_model" args, f') (steps_of (main E) w) ->
   path_exists pt_model_path f' = false)
  /\ (In (Call "export_to_onnx" args, f') (steps_of (main E) w) ->
      path_exists onnx_model_path f' = false)
  /\ (In (Call "convert_onnx_to_engine" args, f') (steps_of (main E) w) ->
      path_exists engine_model_path f' = false).
Proof.
  split; [|split]; intros Hin; apply main_steps_justified in Hin;
    unfold step_justified in Hin; cbn [fst snd] in Hin.
  - destruct Hin as [(_ & _ & H)|[(Hfn & _)|(Hfn & _)]];
      [exact H | discriminate | discriminate].
  - destruct Hin as [(Hfn & _)|[(_ & _ & H & _)|(Hfn & _)]];
      [discriminate | exact H | discriminate].
  - destruct Hin as [(Hfn & _)|[(Hfn & _)|(_ & _ & H & _)]];
      [discriminate | discriminate | exact H].
Qed.

Lemma stage_entered_only_when_output_missing_witness :
  path_exists pt_model_path fs_fresh = false
  /\ path_exists onnx_model_path fs_downloaded = false
  /\ path_exists engine_model_path fs_exported = false.
Proof.
  split; [|split].
  - apply (proj1 (stage_entered_only_when_output_missing all_fine
             (start fs_fresh) ["yolov8n"; "models"] fs_fresh)).
    in_computed_list.
  - apply (proj1 (proj2 (stage_entered_only_when_output_missing all_fine
             (start fs_fresh) ["models/yolov8n.pt"; "models/yolov8n.onnx"]
             fs_downloaded))).
    in_computed_list.
  - apply (proj2 (proj2 (stage_entered_only_when_output_missing all_fine
             (start fs_fresh)
             ["models/yolov8n.onnx"; "models/yolov8n.engine"; "fp16"]
             fs_exported))).
    in_computed_list.
Defined.

#[local] Arguments subsequence : simpl never.
#[local] Arguments stages_entered : simpl never.

(** In every run of [main] each stage is entered at most once, and in
    the order acquirer, converter, compiler invoker. *)
Theorem stages_entered_once_in_order
    (E : externals) (w : world) :
  subsequence (stages_entered (calls_of (main E) w)) pipeline_order = true.
Proof.
  unfold calls_of, steps_of. main_cases.
  all: explicit_steps; reflexivity.
Qed.

(** A failed stage ends the run: the converter is entered after the
    acquirer only if the provider's [save] returned, and the compiler
    invoker is entered after the converter only if the export returned,
    its output was found at [yolov8n.onnx] and the rename succeeded. *)
Theorem no_stage_after_a_failed_one
    (E : externals) (w : world) :
  (forall a1 a2,
      In (Call "download_model" a1) (calls_of (main E) w) ->
      In (Call "export_to_onnx" a2) (calls_of (main E) w) ->
      exists m p f1 f2,
        In (Model_save m p, f1) (steps_of (main E) w)
        /\ ext_save E m p f1 = inr f2)
  /\ (forall a1 a2,
      In (Call "export_to_onnx" a1) (calls_of (main E) w) ->
      In (Call "convert_onnx_to_engine" a2) (calls_of (main E) w) ->
      exists m f1 f2 f3,
        In (Model_export m "onnx" true 14%Z false, f1) (steps_of (main E) w)
        /\ ext_export E m "onnx" true 14%Z false f1 = inr f2
        /\ path_exists (Path_of "yolov8n.onnx") f2 = true
        /\ rename (Path_of "yolov8n.onnx") onnx_model_path f2 = inr f3).
Proof.
  split; intros a1 a2; unfold calls_of, steps_of; main_cases.
  all: explicit_steps; cbn; intros H1 H2.
  all: repeat match goal with
         | H : _ \/ _ |- _ => destruct H as [H|H]
         | H : False |- _ => destruct H
         | H : _ = _ :> event |- _ => discriminate H
         end.
  all: do 4 eexists.
  all: repeat split; try eassumption.
  all: repeat (first [left; reflexivity | right]).
Qed.

Lemma no_stage_after_a_failed_one_witness :
  (exists m p f1 f2,
      In (Model_save m p, f1) (steps_of (main all_fine) (start fs_fresh))
      /\ ext_save all_fine m p f1 = inr f2)
  /\ (exists m f1 f2 f3,
      In (Model_export m "onnx" true 14%Z false, f1)
         (steps_of (main all_fine) (start fs_fresh))
      /\ ext_export all_fine m "onnx" true 14%Z false f1 = inr f2
      /\ path_exists (Path_of "yolov8n.onnx") f2 = true
      /\ rename (Path_of "yolov8n.onnx") onnx_model_path f2 = inr f3).
Proof.
  split.
  - apply (proj1 (no_stage_after_a_failed_one all_fine (start fs_fresh))
             ["yolov8n"; "models"]
             ["models/yolov8n.pt"; "models/yolov8n.onnx"]);
      in_computed_list.
  - apply (proj2 (no_stage_after_a_failed_one all_fine (start fs_fresh))
             ["models/yolov8n.pt"; "models/yolov8n.onnx"]
             ["models/yolov8n.onnx"; "models/yolov8n.engine"; "fp16"]);
      in_computed_list.
Defined.

(** A serialized model that is already there is left alone: when the
    serialized-model path exists as [main] starts, the run never enters
    the acquirer and never asks the provider to move or save a model. *)
Theorem present_model_is_not_downloaded_again
    (E : externals) (w : world) :
  path_exists pt_model_path (fs w) = true ->
  (forall args, ~ In (Call "download_model" args) (calls_of (main E) w))
  /\ (forall device, ~ In (Model_to device) (calls_of (main E) w))
  /\ (forall m p, ~ In (Model_save m p) (calls_of (main E) w)).
Proof.
  intros Hpt.
  destruct (exists_below_dir "models" "yolov8n.pt" (fs w) Hpt) as (sub & Hdir).
  pose proof (mkdir_existing _ _ _ Hdir) as Hmk.
  change ["models"] with save_directory in Hmk.
  revert Hmk Hpt.
  split; [|split]; intros; unfold calls_of, steps_of, not;
    revert Hmk Hpt; main_cases.
  all: explicit_steps; cbn; intros Hmk Hpt Hin.
  all: repeat match goal with
         | H : _ \/ _ |- _ => destruct H as [H|H]
         | H : False |- _ => destruct H
         | H : _ = _ :> event |- _ => discriminate H
         end.
  all: congruence.
Qed.

Lemma present_model_is_not_downloaded_again_witness :
  (forall args, ~ In (Call "download_model" args)
                     (calls_of (main all_fine) (start fs_downloaded)))
  /\ (forall device, ~ In (Model_to device)
                         (calls_of (main all_fine) (start fs_downloaded)))
  /\ (forall m p, ~ In (Model_save m p)
                      (calls_of (main all_fine) (start fs_downloaded))).
Proof.
  apply (present_model_is_not_downloaded_again all_fine (start fs_downloaded)).
  reflexivity.
Defined.

(** With the serialized model and the interchange artifact there and no
    engine, a run of [main] is the two skip notices followed by one call
    of the compiler invoker on the two fixed paths with precision
    [fp16]: same outcome, same filesystem, same output. *)
Theorem main_resumes_at_compilation
    (E : externals) (w : world) :
  path_exists pt_model_path (fs w) = true ->
  path_exists onnx_model_path (fs w) = true ->
  path_exists engine_model_path (fs w) = false ->
  main E w
  = convert_onnx_to_engine E onnx_model_path engine_model_path "fp16"
      (World (fs w)
         (printed w ++
          ["El modelo PyTorch ya existe en models/yolov8n.pt. Saltando descarga.";
           "El modelo ONNX ya existe en models/yolov8n.onnx. Saltando exportación."])
         (trace w)).
Proof.
  intros Hpt Honnx Hengine.
  destruct (exists_below_dir "models" "yolov8n.pt" (fs w) Hpt) as (sub & Hdir).
  pose proof (mkdir_existing _ _ _ Hdir) as Hmk.
  unfold main, bind, fs_op, exists_, print.
  change save_directory with ["models"]. rewrite Hmk. cbn.
  rewrite Hpt. cbn. rewrite Honnx. cbn. rewrite Hengine. cbn.
  now rewrite <- !app_assoc.
Qed.

Lemma main_resumes_at_compilation_witness :
  main all_fine (start fs_exported)
  = convert_onnx_to_engine all_fine onnx_model_path engine_model_path "fp16"
      (World (fs (start fs_exported))
         (printed (start fs_exported) ++
          ["El modelo PyTorch ya existe en models/yolov8n.pt. Saltando descarga.";
           "El modelo ONNX ya existe en models/yolov8n.onnx. Saltando exportación."])
         (trace (start fs_exported))).
Proof.
  apply (main_resumes_at_compilation all_fine (start fs_exported));
    reflexivity.
Defined.

(** The checks do not look at one another: whenever the serialized model
    is missing once the output directory is there, the first thing a run
    of [main] does is enter the acquirer, whether or not an interchange
    artifact or an engine is already present. *)
Theorem missing_model_is_downloaded_first
    (E : externals) (w : world) (f0 : filesystem) :
  mkdir_parents_exist_ok save_directory (fs w) = inr f0 ->
  path_exists pt_model_path f0 = false ->
  hd_error (steps_of (main E) w)
  = Some (Call "download_model" [model_name; str save_directory], f0).
Proof.
  unfold steps_of. main_cases.
  all: explicit_steps; cbn; intros Hmk Hpt.
  all: try discriminate; try congruence.
Qed.

Lemma missing_model_is_downloaded_first_witness :
  hd_error (steps_of (main all_fine) (start fs_engine_only))
  = Some (Call "download_model" [model_name; str save_directory],
          fs_engine_only).
Proof.
  apply (missing_model_is_downloaded_first all_fine (start fs_engine_only)
           fs_engine_only);
    reflexivity.
Defined.
